(** * ChatKitPanel: session lifecycle and tool dispatch

    A shallow embedding of [src/components/ChatKitPanel.tsx] (the React
    component that negotiates a ChatKit client secret, dispatches client
    tools and coordinates reset / thread change / auto-start), together with
    the properties its specification states about it.

    The source file holds two revisions of the component.  The current one
    (with [autoStartText] and [hasAutoStartedRef]) is embedded at top level;
    the places where the earlier revision differs are embedded in
    [Module Earlier]. *)

From Stdlib Require Import NArith List String Ascii Bool Floats Lia.
From stdpp Require Import gmap list.

Set Warnings "-register-all".

(** ** JavaScript data *)

(** A JavaScript string is a sequence of UTF-16 code units. *)
Abbreviation jsstring := (list N).

(** ASCII literals of the source, as code units. *)
Definition js (s : string) : jsstring :=
  map N_of_ascii (list_ascii_of_string s).

(** The values that cross the widget and network boundaries: what
    [JSON.parse] produces, plus [undefined] for an absent property.  A number
    is an IEEE-754 double.  An object is its list of own properties, the
    first binding of a key being the live one. *)
Inductive value : Type :=
| VUndefined
| VNull
| VBool (b : bool)
| VNum (n : float)
| VStr (s : jsstring)
| VArr (items : list value)
| VObj (fields : list (jsstring * value)).

(** What a [throw] carries: an object for which [instanceof Error] holds
    (with its [name] and [message]), or any other value. *)
Inductive Thrown : Type :=
| ErrorObject (name message : jsstring)
| NonError (v : value).

(** [new Error(message)] *)
Definition new_Error (message : jsstring) : Thrown :=
  ErrorObject (js "Error") message.

Definition instanceof_Error (e : Thrown) : bool :=
  match e with ErrorObject _ _ => true | NonError _ => false end.

(** Outcome of evaluating something that may throw (for an [async] function:
    the settlement of the promise it returns). *)
Inductive Completion (A : Type) : Type :=
| Normal (a : A)
| Throw (e : Thrown).
Arguments Normal {A} a.
Arguments Throw {A} e.

(** Texts that the language leaves to the engine. *)
Record Engine : Type := {
  (** [Number.prototype.toString] *)
  Number_toString : float -> jsstring;
  (** message of the TypeError raised by reading property [k] of [null] or
      [undefined] *)
  nullish_read_message : value -> jsstring -> jsstring;
  (** message of the TypeError raised when an object has no primitive value *)
  not_primitive_message : jsstring
}.

Definition TypeError (message : jsstring) : Thrown :=
  ErrorObject (js "TypeError") message.

(** [typeof v] *)
Definition typeof (v : value) : jsstring :=
  match v with
  | VUndefined => js "undefined"
  | VNull => js "object"
  | VBool _ => js "boolean"
  | VNum _ => js "number"
  | VStr _ => js "string"
  | VArr _ => js "object"
  | VObj _ => js "object"
  end.

(** [Boolean(v)], the test made by [if (v)], [!v] and [v && ...] *)
Definition truthy (v : value) : bool :=
  match v with
  | VUndefined | VNull => false
  | VBool b => b
  | VNum n => negb (PrimFloat.is_zero n || PrimFloat.is_nan n)
  | VStr s => negb (bool_decide (s = []))
  | VArr _ | VObj _ => true
  end.

(** Own property [k] of an object. *)
Fixpoint own (k : jsstring) (fields : list (jsstring * value)) : option value :=
  match fields with
  | [] => None
  | (k', v) :: rest => if decide (k' = k) then Some v else own k rest
  end.

(** [o.k] for [o] other than [null] and [undefined], and for the property
    names this component reads ([error], [message], [details],
    [client_secret], [theme], [fact_id], [fact_text]): none of them is defined
    on a built-in prototype, so arrays and primitives answer [undefined]. *)
Definition property (o : value) (k : jsstring) : value :=
  match o with
  | VObj fields => default VUndefined (own k fields)
  | _ => VUndefined
  end.

Definition is_null (v : value) : bool :=
  match v with VNull => true | _ => false end.

Definition is_nullish (v : value) : bool :=
  match v with VUndefined | VNull => true | _ => false end.

(** [o.k]: reading from [null] or [undefined] throws. *)
Definition Get (E : Engine) (o : value) (k : jsstring) : Completion value :=
  if is_nullish o then Throw (TypeError (nullish_read_message E o k))
  else Normal (property o k).

(** [o?.k] *)
Definition Get_optional (o : value) (k : jsstring) : value :=
  if is_nullish o then VUndefined else property o k.

(** [k in o], for the same property names, [o] being of type object and not
    null. *)
Definition has_property (k : jsstring) (o : value) : bool :=
  match o with
  | VObj fields => bool_decide (is_Some (own k fields))
  | _ => false
  end.

(** [a ?? b] *)
Definition nullish_or (a b : value) : value :=
  if is_nullish a then b else a.

(** [String(v)].  Arrays join their elements with a comma, [null] and
    [undefined] elements contributing nothing.  A plain object prints as
    [[object Object]] through [Object.prototype.toString]; when it has an own
    [toString] property (never callable in data) no primitive is found and a
    TypeError is thrown. *)
Fixpoint ToString (E : Engine) (v : value) : Completion jsstring :=
  match v with
  | VUndefined => Normal (js "undefined")
  | VNull => Normal (js "null")
  | VBool true => Normal (js "true")
  | VBool false => Normal (js "false")
  | VNum n => Normal (Number_toString E n)
  | VStr s => Normal s
  | VArr items =>
      (fix join (l : list value) : Completion jsstring :=
         match l with
         | [] => Normal []
         | x :: rest =>
             match (match x with
                    | VUndefined | VNull => Normal []
                    | _ => ToString E x
                    end) with
             | Throw e => Throw e
             | Normal first =>
                 match rest with
                 | [] => Normal first
                 | _ :: _ =>
                     match join rest with
                     | Throw e => Throw e
                     | Normal others => Normal (first ++ js "," ++ others)
                     end
                 end
             end
         end) items
  | VObj fields =>
      match own (js "toString") fields with
      | Some _ => Throw (TypeError (not_primitive_message E))
      | None => Normal (js "[object Object]")
      end
  end.

(** Code units matched by [\s] and stripped by [trim]: WhiteSpace and
    LineTerminator. *)
Definition isWhiteSpace (c : N) : bool :=
  ((9 <=? c) && (c <=? 13) || (c =? 32) || (c =? 160) || (c =? 5760)
   || (8192 <=? c) && (c <=? 8202) || (c =? 8232) || (c =? 8233)
   || (c =? 8239) || (c =? 8287) || (c =? 12288) || (c =? 65279))%N.

(** [s.replace(/\s+/g, " ")]: [in_run] tells that the previous code unit was
    white space, already replaced. *)
Fixpoint replace_whitespace_runs (in_run : bool) (s : jsstring) : jsstring :=
  match s with
  | [] => []
  | c :: rest =>
      if isWhiteSpace c
      then (if in_run then [] else js " ") ++ replace_whitespace_runs true rest
      else c :: replace_whitespace_runs false rest
  end.

Fixpoint trimStart (s : jsstring) : jsstring :=
  match s with
  | [] => []
  | c :: rest => if isWhiteSpace c then trimStart rest else s
  end.

(** [s.trim()] *)
Definition trim (s : jsstring) : jsstring :=
  rev (trimStart (rev (trimStart s))).

(** [s.startsWith(prefix)] *)
Fixpoint startsWith (s prefix : jsstring) : bool :=
  match prefix, s with
  | [], _ => true
  | _ :: _, [] => false
  | p :: prefix', c :: s' => (p =? c)%N && startsWith s' prefix'
  end.

(** [v === "literal"] *)
Definition strict_equals_string (v : value) (literal : jsstring) : bool :=
  match v with
  | VStr s => bool_decide (s = literal)
  | _ => false
  end.

(** ** The component's surroundings *)

(** What the module is loaded with.  [isDev] is
    [process.env.NODE_ENV !== "production"].  [@/lib/config] is not part of
    the sources at hand: the two constants read from it are parameters, and
    [WORKFLOW_ID] is [None] when the constant is [undefined]. *)
Record Config : Type := {
  isDev : bool;
  WORKFLOW_ID : option jsstring;
  CREATE_SESSION_ENDPOINT : jsstring
}.

Inductive ColorScheme : Type := light | dark.

(** The [type] of a [FactAction] is always ["save"]. *)
Record FactAction : Type := {
  factId : jsstring;
  factText : jsstring
}.

Inductive ConsoleLevel : Type := console_info | console_debug | console_error.

(** Calls that leave the component: the props, the widget's
    [sendUserMessage], [fetch] and the console.  A console call keeps its
    level and leading text; the objects dumped after it are left out.
    [call_fetch] is the POST of
    [{workflow: {id}, chatkit_configuration: {file_upload: {enabled: true}}}]. *)
Inductive Call : Type :=
| call_console (level : ConsoleLevel) (text : jsstring)
| call_fetch (endpoint : jsstring) (workflow_id : option jsstring)
| call_onThemeRequest (scheme : ColorScheme)
| call_onWidgetAction (action : FactAction)
| call_onResponseEnd
| call_sendUserMessage (text : jsstring) (newThread : bool).

(** ** The component's state *)

Record ErrorState : Type := { message : option jsstring }.

Definition createInitialErrors : ErrorState := {| message := None |}.

(** The [useRef] cells and [useState] slots of one [ChatKitPanel].  The
    callbacks read the refs only, never the state slots, so a state setter is
    taken to act at once.  [widgetInstanceKey] starts at 0 and only ever has 1
    added to it: it is taken as a natural number. *)
Record Panel : Type := {
  processedFacts : gset jsstring;
  errors : ErrorState;
  isInitializingSession : bool;
  widgetInstanceKey : N;
  isMountedRef : bool;
  hasAutoStartedRef : bool
}.

(** State on mount. *)
Definition mount : Panel := {|
  processedFacts := ∅;
  errors := createInitialErrors;
  isInitializingSession := true;
  widgetInstanceKey := 0;
  isMountedRef := true;
  hasAutoStartedRef := false
|}.

(** An outgoing call, with the state the callee finds when it is made. *)
Record Occurrence : Type := { made : Call; found : Panel }.

(** Code of the component: it reads and writes the state and makes calls. *)
Definition M (A : Type) : Type := Panel -> A * Panel * list Occurrence.

#[export] Instance M_ret : MRet M := fun A a p => (a, p, []).

#[export] Instance M_bind : MBind M := fun A B k m p =>
  let '(a, p1, calls1) := m p in
  let '(b, p2, calls2) := k a p1 in
  (b, p2, calls1 ++ calls2).

Definition read : M Panel := fun p => (p, p, []).

Definition write (f : Panel -> Panel) : M unit := fun p => (tt, f p, []).

Definition perform (c : Call) : M unit :=
  fun p => (tt, p, [{| made := c; found := p |}]).

Definition when (b : bool) (m : M unit) : M unit :=
  if b then m else mret tt.

Definition result_of {A} (run : A * Panel * list Occurrence) : A := run.1.1.
Definition state_of {A} (run : A * Panel * list Occurrence) : Panel := run.1.2.
Definition calls_of {A} (run : A * Panel * list Occurrence) : list Call :=
  made <$> run.2.

(** The state setters and ref assignments. *)
Definition setErrors (e : ErrorState) : M unit :=
  write (fun p => {| processedFacts := processedFacts p; errors := e;
                     isInitializingSession := isInitializingSession p;
                     widgetInstanceKey := widgetInstanceKey p;
                     isMountedRef := isMountedRef p;
                     hasAutoStartedRef := hasAutoStartedRef p |}).

Definition setIsInitializingSession (b : bool) : M unit :=
  write (fun p => {| processedFacts := processedFacts p; errors := errors p;
                     isInitializingSession := b;
                     widgetInstanceKey := widgetInstanceKey p;
                     isMountedRef := isMountedRef p;
                     hasAutoStartedRef := hasAutoStartedRef p |}).

Definition setWidgetInstanceKey (f : N -> N) : M unit :=
  write (fun p => {| processedFacts := processedFacts p; errors := errors p;
                     isInitializingSession := isInitializingSession p;
                     widgetInstanceKey := f (widgetInstanceKey p);
                     isMountedRef := isMountedRef p;
                     hasAutoStartedRef := hasAutoStartedRef p |}).

Definition set_processedFacts (f : gset jsstring -> gset jsstring) : M unit :=
  write (fun p => {| processedFacts := f (processedFacts p); errors := errors p;
                     isInitializingSession := isInitializingSession p;
                     widgetInstanceKey := widgetInstanceKey p;
                     isMountedRef := isMountedRef p;
                     hasAutoStartedRef := hasAutoStartedRef p |}).

Definition set_isMountedRef (b : bool) : M unit :=
  write (fun p => {| processedFacts := processedFacts p; errors := errors p;
                     isInitializingSession := isInitializingSession p;
                     widgetInstanceKey := widgetInstanceKey p;
                     isMountedRef := b;
                     hasAutoStartedRef := hasAutoStartedRef p |}).

Definition set_hasAutoStartedRef (b : bool) : M unit :=
  write (fun p => {| processedFacts := processedFacts p; errors := errors p;
                     isInitializingSession := isInitializingSession p;
                     widgetInstanceKey := widgetInstanceKey p;
                     isMountedRef := isMountedRef p;
                     hasAutoStartedRef := b |}).

(** ** The component *)

Record Invocation : Type := {
  name : jsstring;
  params : list (jsstring * value)
}.

Record ToolResult : Type := { success : bool }.

Record Response : Type := {
  ok : bool;
  status : N;
  statusText : jsstring
}.

(** How the request made by [getClientSecret] ends: [fetch] rejects, or
    [response.text()] rejects, or the body is read; [parsed] is then what
    [JSON.parse(raw)] does. *)
Inductive NetworkReply : Type :=
| fetch_rejects (e : Thrown)
| text_rejects (response : Response) (e : Thrown)
| body_read (response : Response) (raw : jsstring) (parsed : Completion value).

(** What a render hands to the auto-start effect: whether [control] and
    [sendUserMessage] are there, and the [autoStartText] prop. *)
Record Render : Type := {
  control : bool;
  sendUserMessage : bool;
  autoStartText : option jsstring
}.

(** [Boolean(s)] for [s : string | null | undefined] *)
Definition truthy_text (s : option jsstring) : bool :=
  match s with
  | None => false
  | Some s => negb (bool_decide (s = []))
  end.

Definition isErrorLikeWithMessage (v : value) : bool :=
  bool_decide (typeof v = js "object")
  && negb (is_null v)
  && has_property (js "message") v
  && bool_decide (typeof (property v (js "message")) = js "string").

Definition isErrorDetailsWithError (v : value) : bool :=
  bool_decide (typeof v = js "object")
  && negb (is_null v)
  && has_property (js "error") v.

(** The string inside a value whose [typeof] is ["string"]. *)
Definition as_string (v : value) : jsstring :=
  match v with VStr s => s | _ => [] end.

Definition extractErrorDetail (payload : value) (fallback : jsstring) : jsstring :=
  if negb (truthy payload) then fallback
  else
    let error := property payload (js "error") in
    let details := property payload (js "details") in
    let message := property payload (js "message") in
    if bool_decide (typeof error = js "string") then as_string error
    else if isErrorLikeWithMessage error
    then as_string (property error (js "message"))
    else if bool_decide (typeof details = js "string") then as_string details
    else
      let after_details :=
        if bool_decide (typeof message = js "string") then as_string message
        else fallback in
      if isErrorDetailsWithError details then
        let nestedError := property details (js "error") in
        if bool_decide (typeof nestedError = js "string")
        then as_string nestedError
        else if isErrorLikeWithMessage nestedError
        then as_string (property nestedError (js "message"))
        else after_details
      else after_details.

Section ChatKitPanel.

Context (E : Engine) (config : Config).

Definition isWorkflowConfigured : bool :=
  match WORKFLOW_ID config with
  | None => false
  | Some id =>
      negb (bool_decide (id = [])) && negb (startsWith id (js "wf_replace"))
  end.

Definition setErrorMessage (message : option jsstring) : M unit :=
  setErrors {| message := message |}.

Definition handleResetChat : M unit :=
  set_processedFacts (fun _ => ∅);;
  set_hasAutoStartedRef false;;
  setIsInitializingSession true;;
  setErrors createInitialErrors;;
  setWidgetInstanceKey (fun prev => (prev + 1)%N).

Definition configuration_detail : jsstring :=
  js "Set NEXT_PUBLIC_CHATKIT_WORKFLOW_ID in your .env.local file.".

(** [getClientSecret] up to its first [await]: either it has thrown, or the
    request is on its way. *)
Definition getClientSecret_until_fetch (currentSecret : option jsstring)
  : M (Completion unit) :=
  when (isDev config)
    (perform (call_console console_info (js "[ChatKitPanel] getClientSecret invoked")));;
  if negb isWorkflowConfigured then
    let detail := configuration_detail in
    p ← read;
    when (isMountedRef p)
      (setErrorMessage (Some detail);; setIsInitializingSession false);;
    mret (Throw (new_Error detail))
  else
    p ← read;
    when (isMountedRef p)
      (when (negb (truthy_text currentSecret)) (setIsInitializingSession true);;
       setErrorMessage None);;
    perform (call_fetch (CREATE_SESSION_ENDPOINT config) (WORKFLOW_ID config));;
    mret (Normal tt).

(** The [try] block, from the settlement of [fetch] on. *)
Definition getClientSecret_try (reply : NetworkReply) : M (Completion value) :=
  match reply with
  | fetch_rejects e => mret (Throw e)
  | text_rejects _ e => mret (Throw e)
  | body_read response raw parsed =>
      when (isDev config)
        (perform (call_console console_info (js "[ChatKitPanel] createSession response")));;
      data ← (if negb (bool_decide (raw = [])) then
                match parsed with
                | Normal v => mret v
                | Throw parseError =>
                    perform (call_console console_error
                               (js "Failed to parse create-session response"));;
                    mret (VObj [])
                end
              else mret (VObj []));
      if negb (ok response) then
        let detail := extractErrorDetail data (statusText response) in
        perform (call_console console_error (js "Create session request failed"));;
        mret (Throw (new_Error detail))
      else
        match Get E data (js "client_secret") with
        | Throw e => mret (Throw e)
        | Normal clientSecret =>
            if negb (truthy clientSecret) then
              mret (Throw (new_Error (js "Missing client secret in response")))
            else
              p ← read;
              when (isMountedRef p) (setErrorMessage None);;
              mret (Normal clientSecret)
        end
  end.

Definition getClientSecret_catch (error : Thrown) : M (Completion value) :=
  perform (call_console console_error (js "Failed to create ChatKit session"));;
  let detail :=
    match error with
    | ErrorObject _ message => message
    | NonError _ => js "Unable to start ChatKit session."
    end in
  p ← read;
  when (isMountedRef p) (setErrorMessage (Some detail));;
  mret (Throw (if instanceof_Error error then error else new_Error detail)).

Definition getClientSecret_finally (currentSecret : option jsstring) : M unit :=
  p ← read;
  when (isMountedRef p && negb (truthy_text currentSecret))
    (setIsInitializingSession false).

(** [getClientSecret] from the settlement of [fetch] to its end. *)
Definition getClientSecret_after_fetch
    (currentSecret : option jsstring) (reply : NetworkReply)
  : M (Completion value) :=
  outcome ← (tried ← getClientSecret_try reply;
             match tried with
             | Normal clientSecret => mret (Normal clientSecret)
             | Throw error => getClientSecret_catch error
             end);
  getClientSecret_finally currentSecret;;
  mret outcome.

(** One whole negotiation, nothing else happening in between. *)
Definition getClientSecret
    (currentSecret : option jsstring) (reply : NetworkReply)
  : M (Completion value) :=
  started ← getClientSecret_until_fetch currentSecret;
  match started with
  | Throw e => mret (Throw e)
  | Normal _ => getClientSecret_after_fetch currentSecret reply
  end.

(** [text.replace(/\s+/g, " ").trim()] *)
Definition normalize_fact_text (text : jsstring) : jsstring :=
  trim (replace_whitespace_runs false text).

Definition onClientTool (invocation : Invocation) : M (Completion ToolResult) :=
  if bool_decide (name invocation = js "switch_theme") then
    let requested := property (VObj (params invocation)) (js "theme") in
    if strict_equals_string requested (js "light")
       || strict_equals_string requested (js "dark")
    then
      when (isDev config)
        (perform (call_console console_debug (js "[ChatKitPanel] switch_theme")));;
      perform (call_onThemeRequest
                 (if strict_equals_string requested (js "light")
                  then light else dark));;
      mret (Normal {| success := true |})
    else mret (Normal {| success := false |})
  else if bool_decide (name invocation = js "record_fact") then
    match ToString E (nullish_or (property (VObj (params invocation)) (js "fact_id"))
                        (VStr [])) with
    | Throw e => mret (Throw e)
    | Normal id =>
        match ToString E (nullish_or
                            (property (VObj (params invocation)) (js "fact_text"))
                            (VStr [])) with
        | Throw e => mret (Throw e)
        | Normal text =>
            p ← read;
            if bool_decide (id = []) || bool_decide (id ∈ processedFacts p)
            then mret (Normal {| success := true |})
            else
              set_processedFacts (fun facts => {[ id ]} ∪ facts);;
              perform (call_onWidgetAction
                         {| factId := id;
                            factText := normalize_fact_text text |});;
              mret (Normal {| success := true |})
        end
    end
  else mret (Normal {| success := false |}).

Definition onResponseEnd : M unit := perform call_onResponseEnd.

Definition onResponseStart : M unit := setErrorMessage None.

Definition onThreadChange : M unit :=
  set_processedFacts (fun _ => ∅);;
  set_hasAutoStartedRef false.

(** ChatKit shows user-facing errors; this is just for logging. *)
Definition onError (error : Thrown) : M unit :=
  perform (call_console console_error (js "ChatKit error")).

Definition auto_start_failure : jsstring :=
  js "Connected, but failed to send the initial message. You can type manually.".

(** The auto-start effect, up to the [await] of the send. *)
Definition autoStart (r : Render) : M unit :=
  if negb (control r) || negb (sendUserMessage r)
     || negb (truthy_text (autoStartText r))
  then mret tt
  else
    p ← read;
    if hasAutoStartedRef p then mret tt
    else
      set_hasAutoStartedRef true;;
      perform (call_sendUserMessage (default [] (autoStartText r)) true).

(** Its [catch] block, run when the send rejects. *)
Definition autoStart_catch (error : Thrown) : M unit :=
  perform (call_console console_error (js "Failed to send auto-start message"));;
  setErrorMessage (Some auto_start_failure).

(** The cleanup of the mount effect. *)
Definition unmount : M unit := set_isMountedRef false.

(** What the render derives for the error overlay. *)
Definition hasError (p : Panel) : bool := truthy_text (message (errors p)).

Definition fallbackMessage (p : Panel) : option jsstring :=
  if isInitializingSession p then Some (js "Initializing chat session...")
  else None.

Definition onRetry (p : Panel) : option (M unit) :=
  if hasError p then Some handleResetChat else None.

End ChatKitPanel.

(** ** The component over time *)

(** Everything runs on the UI thread, one event at a time.  An [async]
    function is cut at its [await]s: [widget_getClientSecret] runs
    [getClientSecret] up to the request and [request_settles] runs the rest,
    [effect_autoStart] runs the auto-start effect up to the send and
    [send_rejects] runs its [catch].  The promise that [onWidgetAction]
    returns is dropped ([void]): its settlement runs no code of the component
    and is no event. *)
Inductive Event : Type :=
| widget_getClientSecret (currentSecret : option jsstring)
| request_settles (currentSecret : option jsstring) (reply : NetworkReply)
| widget_onClientTool (invocation : Invocation)
| widget_onResponseStart
| widget_onResponseEnd
| widget_onThreadChange
| widget_onError (error : Thrown)
| overlay_onRetry
| effect_autoStart (r : Render)
| send_rejects (error : Thrown)
| effect_cleanup.

Section Events.

Context (E : Engine) (config : Config).

Definition handle (ev : Event) : M unit :=
  match ev with
  | widget_getClientSecret currentSecret =>
      getClientSecret_until_fetch config currentSecret;; mret tt
  | request_settles currentSecret reply =>
      getClientSecret_after_fetch E config currentSecret reply;; mret tt
  | widget_onClientTool invocation =>
      onClientTool E config invocation;; mret tt
  | widget_onResponseStart => onResponseStart
  | widget_onResponseEnd => onResponseEnd
  | widget_onThreadChange => onThreadChange
  | widget_onError error => onError error
  | overlay_onRetry =>
      p ← read;
      match onRetry p with
      | Some retry => retry
      | None => mret tt
      end
  | effect_autoStart r => autoStart r
  | send_rejects error => autoStart_catch error
  | effect_cleanup => unmount
  end.

Fixpoint run (evs : list Event) : M unit :=
  match evs with
  | [] => mret tt
  | ev :: rest => handle ev;; run rest
  end.

End Events.

(** Events that start a new thread lifetime: they empty [processedFacts] and
    clear [hasAutoStartedRef]. *)
Definition starts_thread (ev : Event) : bool :=
  match ev with
  | widget_onThreadChange | overlay_onRetry => true
  | _ => false
  end.

Definition is_save (id : jsstring) (c : Call) : bool :=
  match c with
  | call_onWidgetAction a => bool_decide (factId a = id)
  | _ => false
  end.

Definition is_send (c : Call) : bool :=
  match c with
  | call_sendUserMessage _ _ => true
  | _ => false
  end.

Definition is_fetch (c : Call) : bool :=
  match c with
  | call_fetch _ _ => true
  | _ => false
  end.

Definition is_themeRequest (c : Call) : bool :=
  match c with
  | call_onThemeRequest _ => true
  | _ => false
  end.

(** How often [onWidgetAction] was called for fact [id]. *)
Definition saves (id : jsstring) (calls : list Call) : nat :=
  length (List.filter (is_save id) calls).

(** How often [sendUserMessage] was called. *)
Definition sends (calls : list Call) : nat :=
  length (List.filter is_send calls).

Definition is_ready (r : Render) : bool :=
  control r && sendUserMessage r && truthy_text (autoStartText r).

(** ** The earlier revision *)

Module Earlier.

Section ChatKitPanel.

Context (E : Engine) (config : Config).

(** There is no [hasAutoStartedRef] in this revision. *)
Definition handleResetChat : M unit :=
  set_processedFacts (fun _ => ∅);;
  setIsInitializingSession true;;
  setErrors createInitialErrors;;
  setWidgetInstanceKey (fun prev => (prev + 1)%N).

Definition onThreadChange : M unit :=
  set_processedFacts (fun _ => ∅).

Definition extractErrorDetail (payload : value) (fallback : jsstring)
  : jsstring :=
  if negb (truthy payload) then fallback
  else
    let error := property payload (js "error") in
    if bool_decide (typeof error = js "string") then as_string error
    else if truthy error
            && bool_decide (typeof error = js "object")
            && has_property (js "message") error
            && bool_decide (typeof (property error (js "message")) = js "string")
    then as_string (property error (js "message"))
    else
      let details := property payload (js "details") in
      if bool_decide (typeof details = js "string") then as_string details
      else
        let after_details :=
          if bool_decide (typeof (property payload (js "message")) = js "string")
          then as_string (property payload (js "message"))
          else fallback in
        if truthy details
           && bool_decide (typeof details = js "object")
           && has_property (js "error") details
        then
          let nestedError := property details (js "error") in
          if bool_decide (typeof nestedError = js "string")
          then as_string nestedError
          else if truthy nestedError
                  && bool_decide (typeof nestedError = js "object")
                  && has_property (js "message") nestedError
                  && bool_decide (typeof (property nestedError (js "message"))
                                  = js "string")
          then as_string (property nestedError (js "message"))
          else after_details
        else after_details.

(** The [try] block with [data?.client_secret]. *)
Definition getClientSecret_try (reply : NetworkReply) : M (Completion value) :=
  match reply with
  | fetch_rejects e => mret (Throw e)
  | text_rejects _ e => mret (Throw e)
  | body_read response raw parsed =>
      when (isDev config)
        (perform (call_console console_info
                    (js "[ChatKitPanel] createSession response")));;
      data ← (if negb (bool_decide (raw = [])) then
                match parsed with
                | Normal v => mret v
                | Throw parseError =>
                    perform (call_console console_error
                               (js "Failed to parse create-session response"));;
                    mret (VObj [])
                end
              else mret (VObj []));
      if negb (ok response) then
        let detail := extractErrorDetail data (statusText response) in
        perform (call_console console_error (js "Create session request failed"));;
        mret (Throw (new_Error detail))
      else
        let clientSecret := Get_optional data (js "client_secret") in
        if negb (truthy clientSecret) then
          mret (Throw (new_Error (js "Missing client secret in response")))
        else
          p ← read;
          when (isMountedRef p) (setErrorMessage None);;
          mret (Normal clientSecret)
  end.

Definition getClientSecret_after_fetch
    (currentSecret : option jsstring) (reply : NetworkReply)
  : M (Completion value) :=
  outcome ← (tried ← getClientSecret_try reply;
             match tried with
             | Normal clientSecret => mret (Normal clientSecret)
             | Throw error => getClientSecret_catch error
             end);
  getClientSecret_finally currentSecret;;
  mret outcome.

Definition getClientSecret
    (currentSecret : option jsstring) (reply : NetworkReply)
  : M (Completion value) :=
  started ← getClientSecret_until_fetch config currentSecret;
  match started with
  | Throw e => mret (Throw e)
  | Normal _ => getClientSecret_after_fetch currentSecret reply
  end.

(** The Start button of this revision, up to the [await] of the send, and
    its [catch] block. *)
Definition handleStartClick (sendUserMessage : bool) : M unit :=
  if negb sendUserMessage then mret tt
  else perform (call_sendUserMessage (js "Start") true).

Definition handleStartClick_catch (error : Thrown) : M unit :=
  perform (call_console console_error
             (js "[ChatKitPanel] Failed to send Start message")).

End ChatKitPanel.

End Earlier.

(** ** The fallback order, in the specification's words *)

Module Fallback.

(** Field [k] of a payload, when the payload is an object that has it. *)
Definition field (payload : value) (k : jsstring) : option value :=
  match payload with
  | VObj fields => own k fields
  | _ => None
  end.

Definition if_string (v : option value) : option jsstring :=
  match v with
  | Some (VStr s) => Some s
  | _ => None
  end.

(** An object with a string [message]. *)
Definition if_object_with_message (v : option value) : option jsstring :=
  match v with
  | Some o => if_string (field o (js "message"))
  | None => None
  end.

(** The candidates, in order. *)
Definition candidates (payload : value) : list (option jsstring) :=
  [ if_string (field payload (js "error"));
    if_object_with_message (field payload (js "error"));
    if_string (field payload (js "details"));
    match field payload (js "details") with
    | Some details =>
        match if_string (field details (js "error")) with
        | Some s => Some s
        | None => if_object_with_message (field details (js "error"))
        end
    | None => None
    end;
    if_string (field payload (js "message")) ].

Fixpoint first_match (l : list (option jsstring)) (otherwise : jsstring)
  : jsstring :=
  match l with
  | [] => otherwise
  | Some s :: _ => s
  | None :: rest => first_match rest otherwise
  end.

Definition detail (payload : value) (statusText : jsstring) : jsstring :=
  first_match (candidates payload) statusText.

End Fallback.

(** ** Vocabulary of the properties *)

(** Code that leaves one part of the state as it found it. *)
Definition preserves {X A} (part : Panel -> X) (m : M A) : Prop :=
  forall p, part (state_of (m p)) = part p.

(** Code that makes no call outside [allowed]. *)
Definition emits {A} (allowed : Call -> bool) (m : M A) : Prop :=
  forall p, forallb allowed (calls_of (m p)) = true.

(** The workflow identifier is unset, empty, or begins with the placeholder
    prefix. *)
Definition workflow_missing (config : Config) : Prop :=
  WORKFLOW_ID config = None
  \/ WORKFLOW_ID config = Some []
  \/ exists id, WORKFLOW_ID config = Some id
                /\ startsWith id (js "wf_replace") = true.

(** The whole state of a panel whose [isMountedRef] is down; nothing for a
    mounted one. *)
Definition unmounted_state (p : Panel) : option Panel :=
  if isMountedRef p then None else Some p.

(** What lies beyond the error surface: the refs and the generation. *)
Definition beyond_error_surface (p : Panel) : gset jsstring * N * bool * bool :=
  (processedFacts p, widgetInstanceKey p, isMountedRef p, hasAutoStartedRef p).

Definition is_console (c : Call) : bool :=
  match c with
  | call_console _ _ => true
  | _ => false
  end.

Definition is_widgetAction (c : Call) : bool :=
  match c with
  | call_onWidgetAction _ => true
  | _ => false
  end.

Definition no_widgetAction (c : Call) : bool := negb (is_widgetAction c).
Definition no_send (c : Call) : bool := negb (is_send c).

Definition keeps_thread (evs : list Event) : bool :=
  forallb (fun ev => negb (starts_thread ev)) evs.

(** An auto-start effect run from a ready render. *)
Definition fires (ev : Event) : bool :=
  match ev with
  | effect_autoStart r => is_ready r
  | _ => false
  end.

(** Every call of [onWidgetAction] finds its fact among the processed ones. *)
Definition recorded_first (o : Occurrence) : Prop :=
  match made o with
  | call_onWidgetAction a => factId a ∈ processedFacts (found o)
  | _ => True
  end.

(** Every call of [sendUserMessage] finds the guard raised. *)
Definition raised_first (o : Occurrence) : Prop :=
  match made o with
  | call_sendUserMessage _ _ => hasAutoStartedRef (found o) = true
  | _ => True
  end.

(** What [data] holds when the status is examined. *)
Definition data_of (raw : jsstring) (parsed : Completion value) : value :=
  if negb (bool_decide (raw = [])) then
    match parsed with
    | Normal v => v
    | Throw _ => VObj []
    end
  else VObj [].

Definition missing_secret : jsstring := js "Missing client secret in response".

(** The scheme a [theme] parameter names, when it is exactly the string
    ["light"] or ["dark"]. *)
Definition named_scheme (theme : value) : option ColorScheme :=
  match theme with
  | VStr s =>
      if decide (s = js "light") then Some light
      else if decide (s = js "dark") then Some dark
      else None
  | _ => None
  end.

Definition switch_theme (given : list (jsstring * value)) : Invocation :=
  {| name := js "switch_theme"; params := given |}.

Definition record_fact (fact_id fact_text : value) : Invocation :=
  {| name := js "record_fact";
     params := [(js "fact_id", fact_id); (js "fact_text", fact_text)] |}.

(** A string that does not begin with white space. *)
Definition starts_clean (s : jsstring) : bool :=
  match s with
  | [] => true
  | c :: _ => negb (isWhiteSpace c)
  end.

(** A string whose only white space is the space character, never two in a
    row; [after_space] tells that a space comes just before. *)
Fixpoint single_spaced (after_space : bool) (s : jsstring) : bool :=
  match s with
  | [] => true
  | c :: rest =>
      if isWhiteSpace c
      then (c =? 32)%N && negb after_space && single_spaced true rest
      else single_spaced false rest
  end.

(** A [record_fact] invocation with any parameters. *)
Definition record_fact_call (given : list (jsstring * value)) : Invocation :=
  {| name := js "record_fact"; params := given |}.

(** Every call of [onWidgetAction] carries a non-empty id and a text that
    normalisation leaves as it is. *)
Definition saved_tidy (o : Occurrence) : Prop :=
  match made o with
  | call_onWidgetAction a =>
      factId a <> [] /\ normalize_fact_text (factText a) = factText a
  | _ => True
  end.

Definition is_cleanup (ev : Event) : bool :=
  match ev with
  | effect_cleanup => true
  | _ => false
  end.

Definition is_retry (ev : Event) : bool :=
  match ev with
  | overlay_onRetry => true
  | _ => false
  end.

Definition is_getClientSecret (ev : Event) : bool :=
  match ev with
  | widget_getClientSecret _ => true
  | _ => false
  end.

Definition no_fetch (c : Call) : bool := negb (is_fetch c).

(** What the [try] block of [getClientSecret] comes to, its console calls
    left aside. *)
Definition tried (E : Engine) (reply : NetworkReply) : Completion value :=
  match reply with
  | fetch_rejects e => Throw e
  | text_rejects _ e => Throw e
  | body_read response raw parsed =>
      if negb (ok response)
      then Throw (new_Error (extractErrorDetail (data_of raw parsed)
                               (statusText response)))
      else
        match Get E (data_of raw parsed) (js "client_secret") with
        | Throw e => Throw e
        | Normal clientSecret =>
            if negb (truthy clientSecret) then Throw (new_Error missing_secret)
            else Normal clientSecret
        end
  end.

(** The [detail] of the [catch] block. *)
Definition detail_of (error : Thrown) : jsstring :=
  match error with
  | ErrorObject _ message => message
  | NonError _ => js "Unable to start ChatKit session."
  end.

(** What the [catch] block throws on. *)
Definition rethrown (error : Thrown) : Thrown :=
  if instanceof_Error error then error else new_Error (detail_of error).

(** A panel with another error message and initializing flag. *)
Definition with_surface (p : Panel) (shown : option jsstring) (initializing : bool)
  : Panel :=
  {| processedFacts := processedFacts p;
     errors := {| message := shown |};
     isInitializingSession := initializing;
     widgetInstanceKey := widgetInstanceKey p;
     isMountedRef := isMountedRef p;
     hasAutoStartedRef := hasAutoStartedRef p |}.

(** The theme request that an event leads to, if any: a [switch_theme]
    invocation whose [theme] names a scheme. *)
Definition theme_requested (ev : Event) : option Call :=
  match ev with
  | widget_onClientTool invocation =>
      if bool_decide (name invocation = js "switch_theme")
      then call_onThemeRequest
             <$> named_scheme (property (VObj (params invocation)) (js "theme"))
      else None
  | _ => None
  end.

(** ** Data for examples *)

(** An engine and two configurations, for examples. *)
Definition some_engine : Engine := {|
  Number_toString := fun _ => js "NaN";
  nullish_read_message := fun o k =>
    js "Cannot read properties of "
    ++ (if is_null o then js "null" else js "undefined")
    ++ js " (reading '" ++ k ++ js "')";
  not_primitive_message := js "Cannot convert object to primitive value"
|}.

Definition configured : Config := {|
  isDev := false;
  WORKFLOW_ID := Some (js "wf_68e5");
  CREATE_SESSION_ENDPOINT := js "/api/create-session"
|}.

Definition placeholder : Config := {|
  isDev := false;
  WORKFLOW_ID := Some (js "wf_replace_with_your_workflow_id");
  CREATE_SESSION_ENDPOINT := js "/api/create-session"
|}.

(** The panel after the cleanup of the mount effect has run. *)
Definition cleaned_up : Panel := state_of (unmount mount).

(** ["s"] *)
Definition quoted (s : jsstring) : jsstring := [34%N] ++ s ++ [34%N].

(** HTTP 500 with body [{"error":"rate_limited"}]. *)
Definition rate_limited : NetworkReply :=
  body_read {| ok := false; status := 500; statusText := js "Internal Server Error" |}
    (js "{" ++ quoted (js "error") ++ js ":" ++ quoted (js "rate_limited") ++ js "}")
    (Normal (VObj [(js "error", VStr (js "rate_limited"))])).

(** HTTP 200 with body [{}], and with body [null]. *)
Definition empty_object_body : NetworkReply :=
  body_read {| ok := true; status := 200; statusText := js "OK" |}
    (js "{}") (Normal (VObj [])).

Definition null_body : NetworkReply :=
  body_read {| ok := true; status := 200; statusText := js "OK" |}
    (js "null") (Normal VNull).

Definition start_render : Render :=
  {| control := true; sendUserMessage := true; autoStartText := Some (js "Start") |}.


(** * Properties *)

#[local] Arguments js : simpl never.

(** ** Reading values *)

Lemma typeof_string (v : value) :
  bool_decide (typeof v = js "string") = match v with VStr _ => true | _ => false end.
Proof. destruct v; reflexivity. Qed.

Lemma typeof_object (v : value) :
  bool_decide (typeof v = js "object")
  = match v with VNull | VArr _ | VObj _ => true | _ => false end.
Proof. destruct v; reflexivity. Qed.

Example ToString_of_nested_array :
  ToString some_engine
    (VArr [VStr (js "a"); VNull; VArr [VStr (js "b"); VBool true]; VObj []])
  = Normal (js "a,,b,true,[object Object]").
Proof. reflexivity. Qed.

Example ToString_of_object_with_toString :
  ToString some_engine (VObj [(js "toString", VStr (js "f1"))])
  = Throw (TypeError (js "Cannot convert object to primitive value")).
Proof. reflexivity. Qed.

Example normalize_fact_text_collapses :
  normalize_fact_text ([9; 32] ++ js "likes" ++ [10; 13; 160] ++ js "tea" ++ [8232])%N
  = js "likes tea".
Proof. reflexivity. Qed.

Example placeholder_is_not_configured :
  isWorkflowConfigured placeholder = false /\ isWorkflowConfigured configured = true.
Proof. split; reflexivity. Qed.

Lemma isErrorLikeWithMessage_spec (v : value) :
  isErrorLikeWithMessage v
  = match Fallback.if_object_with_message (Some v) with
    | Some _ => true
    | None => false
    end.
Proof.
  unfold isErrorLikeWithMessage. rewrite typeof_object, typeof_string.
  destruct v as [| |b|n|s|items|fields]; try reflexivity.
  cbn [is_null negb andb has_property property Fallback.if_object_with_message
       Fallback.field Fallback.if_string].
  destruct (own (js "message") fields) as [[]|]; reflexivity.
Qed.

Lemma earlier_isErrorLikeWithMessage (v : value) :
  truthy v
  && bool_decide (typeof v = js "object")
  && has_property (js "message") v
  && bool_decide (typeof (property v (js "message")) = js "string")
  = isErrorLikeWithMessage v.
Proof.
  unfold isErrorLikeWithMessage.
  destruct v as [| |b|n|s|items|fields]; try reflexivity;
    cbn [truthy]; rewrite ?andb_false_r; try reflexivity.
  all: rewrite !typeof_object; cbn; rewrite ?andb_false_r; reflexivity.
Qed.

Lemma earlier_isErrorDetailsWithError (v : value) :
  truthy v && bool_decide (typeof v = js "object") && has_property (js "error") v
  = isErrorDetailsWithError v.
Proof.
  unfold isErrorDetailsWithError.
  destruct v as [| |b|n|s|items|fields]; try reflexivity;
    cbn [truthy]; rewrite ?andb_false_r; try reflexivity.
  all: rewrite !typeof_object; cbn; rewrite ?andb_false_r; reflexivity.
Qed.

(** The two revisions extract the same detail. *)
Lemma earlier_extractErrorDetail (payload : value) (fallback : jsstring) :
  Earlier.extractErrorDetail payload fallback = extractErrorDetail payload fallback.
Proof.
  unfold Earlier.extractErrorDetail, extractErrorDetail.
  rewrite !earlier_isErrorLikeWithMessage, earlier_isErrorDetailsWithError.
  reflexivity.
Qed.

(** ** Failure detail extraction *)

Lemma extractErrorDetail_of_object (fields : list (jsstring * value))
    (fallback : jsstring) :
  extractErrorDetail (VObj fields) fallback = Fallback.detail (VObj fields) fallback.
Proof.
  unfold extractErrorDetail, Fallback.detail, Fallback.candidates.
  rewrite !isErrorLikeWithMessage_spec, !typeof_string.
  unfold isErrorDetailsWithError. rewrite typeof_object.
  cbn [truthy negb property Fallback.field Fallback.first_match].
  (* the last two candidates: top-level [message], then the status text *)
  assert (Hlast :
    (if match default VUndefined (own (js "message") fields) with
        | VStr _ => true
        | _ => false
        end
     then as_string (default VUndefined (own (js "message") fields))
     else fallback)
    = match Fallback.if_string (own (js "message") fields) with
      | Some s => s
      | None => fallback
      end).
  { destruct (own (js "message") fields) as [[]|]; reflexivity. }
  destruct (own (js "error") fields) as [[| |b|n|s|items|efields]|];
    simpl; try reflexivity.
  all: try (destruct (own (js "message") efields) as [[]|];
            simpl; try reflexivity).
  all: destruct (own (js "details") fields) as [[| |b'|n'|s'|items'|dfields]|];
    simpl; try reflexivity; try exact Hlast.
  all: destruct (own (js "error") dfields) as [[| | | | | |nfields]|];
    simpl; try reflexivity; try exact Hlast.
  all: destruct (own (js "message") nfields) as [[]|];
    simpl; try reflexivity; exact Hlast.
Qed.

Lemma extractErrorDetail_of_primitive (payload : value) (fallback : jsstring) :
  match payload with VObj _ => False | _ => True end ->
  extractErrorDetail payload fallback = fallback.
Proof.
  intros Hprim. unfold extractErrorDetail.
  destruct (truthy payload); [|reflexivity].
  destruct payload; try reflexivity. destruct Hprim.
Qed.

Lemma extractErrorDetail_fallback_order (payload : value) (statusText : jsstring) :
  extractErrorDetail payload statusText = Fallback.detail payload statusText.
Proof.
  destruct payload as [| |b|n|s|items|fields];
    try (rewrite extractErrorDetail_of_primitive by exact I; reflexivity).
  apply extractErrorDetail_of_object.
Qed.

(** ** Reasoning about component code *)

Lemma bind_result {A B} (k : A -> M B) (m : M A) (p : Panel) :
  result_of ((x ← m; k x) p) = result_of (k (result_of (m p)) (state_of (m p))).
Proof.
  unfold mbind, M_bind, result_of, state_of.
  destruct (m p) as [[a p1] c1]; simpl. destruct (k a p1) as [[b p2] c2]. reflexivity.
Qed.

Lemma bind_state {A B} (k : A -> M B) (m : M A) (p : Panel) :
  state_of ((x ← m; k x) p) = state_of (k (result_of (m p)) (state_of (m p))).
Proof.
  unfold mbind, M_bind, result_of, state_of.
  destruct (m p) as [[a p1] c1]; simpl. destruct (k a p1) as [[b p2] c2]. reflexivity.
Qed.

Lemma bind_occurrences {A B} (k : A -> M B) (m : M A) (p : Panel) :
  ((x ← m; k x) p).2 = (m p).2 ++ (k (result_of (m p)) (state_of (m p))).2.
Proof.
  unfold mbind, M_bind, result_of, state_of.
  destruct (m p) as [[a p1] c1]; simpl. destruct (k a p1) as [[b p2] c2]. reflexivity.
Qed.

Lemma bind_calls {A B} (k : A -> M B) (m : M A) (p : Panel) :
  calls_of ((x ← m; k x) p)
  = calls_of (m p) ++ calls_of (k (result_of (m p)) (state_of (m p))).
Proof. unfold calls_of. rewrite bind_occurrences. apply fmap_app. Qed.

Lemma ignore_result_state {A} (m : M A) (p : Panel) :
  state_of ((m;; mret tt) p) = state_of (m p).
Proof. rewrite bind_state. reflexivity. Qed.

Lemma ignore_result_occurrences {A} (m : M A) (p : Panel) :
  ((m;; mret tt) p).2 = (m p).2.
Proof. rewrite bind_occurrences. apply app_nil_r. Qed.

Lemma ignore_result_calls {A} (m : M A) (p : Panel) :
  calls_of ((m;; mret tt) p) = calls_of (m p).
Proof. unfold calls_of. rewrite ignore_result_occurrences. reflexivity. Qed.

Section Frame.

Context {X : Type} (part : Panel -> X).

Lemma preserves_ret {A} (a : A) : preserves part (mret a).
Proof. intros p. reflexivity. Qed.

Lemma preserves_bind {A B} (m : M A) (k : A -> M B) :
  preserves part m -> (forall a, preserves part (k a)) -> preserves part (x ← m; k x).
Proof. intros Hm Hk p. rewrite bind_state, Hk. apply Hm. Qed.

Lemma preserves_read : preserves part read.
Proof. intros p. reflexivity. Qed.

Lemma preserves_perform (c : Call) : preserves part (perform c).
Proof. intros p. reflexivity. Qed.

Lemma preserves_when (b : bool) (m : M unit) : preserves part m -> preserves part (when b m).
Proof. intros Hm. destruct b; [exact Hm | apply preserves_ret]. Qed.

Lemma preserves_write (f : Panel -> Panel) :
  (forall p, part (f p) = part p) -> preserves part (write f).
Proof. intros Hf p. apply Hf. Qed.

End Frame.

Lemma andb_prop_mounted (m b : bool) : m && b = true -> m = true.
Proof. destruct m; [reflexivity | discriminate]. Qed.

Lemma guarded_write (cond : bool) (w : M unit) (p : Panel) :
  preserves isMountedRef w ->
  (cond = true -> isMountedRef p = true) ->
  unmounted_state (state_of (when cond w p)) = unmounted_state p.
Proof.
  intros Hw Hcond. destruct cond; [|reflexivity]. simpl.
  unfold unmounted_state. rewrite Hw, Hcond; reflexivity.
Qed.

(** Writes made only under [if (isMountedRef.current)] leave an unmounted
    panel as it is. *)
Lemma preserves_if_mounted {B} (cond : Panel -> bool) (w : Panel -> M unit)
    (rest : Panel -> M B) :
  (forall q, preserves isMountedRef (w q)) ->
  (forall q, cond q = true -> isMountedRef q = true) ->
  (forall q, preserves unmounted_state (rest q)) ->
  preserves unmounted_state (p ← read; when (cond p) (w p);; rest p).
Proof.
  intros Hw Hcond Hrest p. rewrite bind_state. change (state_of (read p)) with p.
  change (result_of (read p)) with p. rewrite bind_state, Hrest.
  apply guarded_write; [apply Hw | apply Hcond].
Qed.

Lemma preserves_if_mounted_last (cond : Panel -> bool) (w : Panel -> M unit) :
  (forall q, preserves isMountedRef (w q)) ->
  (forall q, cond q = true -> isMountedRef q = true) ->
  preserves unmounted_state (p ← read; when (cond p) (w p)).
Proof.
  intros Hw Hcond p. rewrite bind_state. change (state_of (read p)) with p.
  change (result_of (read p)) with p.
  apply guarded_write; [apply Hw | apply Hcond].
Qed.

Section Emits.

Context (allowed : Call -> bool).

Lemma emits_ret {A} (a : A) : emits allowed (mret a).
Proof. intros p. reflexivity. Qed.

Lemma emits_bind {A B} (m : M A) (k : A -> M B) :
  emits allowed m -> (forall a, emits allowed (k a)) -> emits allowed (x ← m; k x).
Proof.
  intros Hm Hk p. rewrite bind_calls, forallb_app, Hm, Hk. reflexivity.
Qed.

Lemma emits_read : emits allowed read.
Proof. intros p. reflexivity. Qed.

Lemma emits_write (f : Panel -> Panel) : emits allowed (write f).
Proof. intros p. reflexivity. Qed.

Lemma emits_perform (c : Call) : allowed c = true -> emits allowed (perform c).
Proof. intros Hc p. unfold calls_of; simpl. rewrite Hc. reflexivity. Qed.

Lemma emits_when (b : bool) (m : M unit) : emits allowed m -> emits allowed (when b m).
Proof. intros Hm. destruct b; [exact Hm | apply emits_ret]. Qed.

End Emits.

Ltac exact_mounted H :=
  first [exact H | exact (andb_prop_mounted _ _ H)].

(** Walks through component code, splitting sequences and branches. *)
Ltac walk :=
  repeat first
    [ apply preserves_if_mounted;
        [intros ? | intros ? Hcond; exact_mounted Hcond | intros ?]
    | apply preserves_if_mounted_last;
        [intros ? | intros ? Hcond; exact_mounted Hcond]
    | apply preserves_bind; [|intros ?]
    | apply preserves_ret
    | apply preserves_read
    | apply preserves_perform
    | apply preserves_when
    | apply preserves_write; intros ?; reflexivity
    | apply emits_bind; [|intros ?]
    | apply emits_ret
    | apply emits_read
    | apply emits_write
    | apply emits_perform; reflexivity
    | apply emits_when
    | match goal with
      | |- preserves _ (match ?x with _ => _ end) => destruct x
      | |- emits _ (match ?x with _ => _ end) => destruct x
      end ].

Ltac unfold_setters :=
  unfold setErrorMessage, setErrors, setIsInitializingSession,
    setWidgetInstanceKey, set_processedFacts, set_isMountedRef,
    set_hasAutoStartedRef.

(** Runs component code on the state at hand. *)
Ltac exec :=
  unfold_setters;
  unfold when, read, write, perform, mbind, mret, M_bind, M_ret;
  simpl.

(** ** Credential negotiation *)

Section Negotiation.

Context (E : Engine) (config : Config).

Lemma getClientSecret_until_fetch_frame currentSecret :
  preserves beyond_error_surface (getClientSecret_until_fetch config currentSecret).
Proof. unfold getClientSecret_until_fetch. unfold_setters. walk. Qed.

Lemma getClientSecret_until_fetch_unmounted currentSecret :
  preserves unmounted_state (getClientSecret_until_fetch config currentSecret).
Proof. unfold getClientSecret_until_fetch. unfold_setters. walk. Qed.

Lemma getClientSecret_after_fetch_frame currentSecret reply :
  preserves beyond_error_surface
    (getClientSecret_after_fetch E config currentSecret reply).
Proof.
  unfold getClientSecret_after_fetch, getClientSecret_try, getClientSecret_catch,
    getClientSecret_finally.
  unfold_setters. walk.
Qed.

Lemma getClientSecret_after_fetch_unmounted currentSecret reply :
  preserves unmounted_state
    (getClientSecret_after_fetch E config currentSecret reply).
Proof.
  unfold getClientSecret_after_fetch, getClientSecret_try, getClientSecret_catch,
    getClientSecret_finally.
  unfold_setters. walk.
Qed.

Lemma getClientSecret_after_fetch_calls currentSecret reply :
  emits is_console (getClientSecret_after_fetch E config currentSecret reply).
Proof.
  unfold getClientSecret_after_fetch, getClientSecret_try, getClientSecret_catch,
    getClientSecret_finally.
  unfold_setters. walk.
Qed.

End Negotiation.

Section Unconfigured.

Context (E : Engine) (config : Config).

Lemma workflow_missing_not_configured :
  workflow_missing config -> isWorkflowConfigured config = false.
Proof.
  unfold isWorkflowConfigured. intros [H | [H | (id & H & Hprefix)]]; rewrite H.
  - reflexivity.
  - reflexivity.
  - rewrite Hprefix. apply andb_false_r.
Qed.

Lemma getClientSecret_until_fetch_unconfigured currentSecret p :
  isWorkflowConfigured config = false ->
  getClientSecret_until_fetch config currentSecret p
  = (Throw (new_Error configuration_detail),
     if isMountedRef p
     then {| processedFacts := processedFacts p;
             errors := {| message := Some configuration_detail |};
             isInitializingSession := false;
             widgetInstanceKey := widgetInstanceKey p;
             isMountedRef := isMountedRef p;
             hasAutoStartedRef := hasAutoStartedRef p |}
     else p,
     if isDev config
     then [{| made := call_console console_info
                        (js "[ChatKitPanel] getClientSecret invoked");
              found := p |}]
     else []).
Proof.
  intros Hconf. unfold getClientSecret_until_fetch. rewrite Hconf. exec.
  destruct (isDev config), (isMountedRef p) eqn:Hmounted;
    simpl; rewrite ?Hmounted; reflexivity.
Qed.

End Unconfigured.

Lemma bind_run {A B} (k : A -> M B) (m : M A) (p p1 : Panel) (a : A)
    (calls1 : list Occurrence) :
  m p = (a, p1, calls1) ->
  (x ← m; k x) p = ((k a p1).1.1, (k a p1).1.2, calls1 ++ (k a p1).2).
Proof.
  intros Hm. unfold mbind, M_bind. rewrite Hm.
  destruct (k a p1) as [[b p2] calls2]. reflexivity.
Qed.

(** C4, as stated, fails once [isMountedRef] is down: the call still fails
    without a request, but the error message is not set and the initializing
    flag is not cleared. *)
Lemma unconfigured_call_after_cleanup :
  let r := getClientSecret some_engine placeholder None
             (fetch_rejects (TypeError (js "Failed to fetch"))) cleaned_up in
  result_of r = Throw (new_Error configuration_detail)
  /\ message (errors (state_of r)) = None
  /\ isInitializingSession (state_of r) = true.
Proof. vm_compute. repeat split. Qed.

(** C4, amended.  While the workflow identifier is unset, empty or begins
    with the placeholder prefix, every call of [getClientSecret] makes no
    request and fails at once with the configuration detail; when
    [isMountedRef] is up it sets the error message to that detail and clears
    the initializing flag, and when it is down it leaves the state as it is.
    The refs and the generation are never touched. *)
Theorem getClientSecret_unconfigured (E : Engine) (config : Config)
    (currentSecret : option jsstring) (reply : NetworkReply) (p : Panel) :
  workflow_missing config ->
  let r := getClientSecret E config currentSecret reply p in
  result_of r = Throw (new_Error configuration_detail)
  /\ List.filter is_fetch (calls_of r) = []
  /\ (if isMountedRef p
      then message (errors (state_of r)) = Some configuration_detail
           /\ isInitializingSession (state_of r) = false
      else state_of r = p)
  /\ beyond_error_surface (state_of r) = beyond_error_surface p.
Proof.
  intros Hmissing%workflow_missing_not_configured r. subst r.
  unfold getClientSecret.
  rewrite (bind_run _ _ _ _ _ _
             (getClientSecret_until_fetch_unconfigured config currentSecret p
                Hmissing)).
  unfold result_of, state_of, calls_of, beyond_error_surface. simpl.
  repeat split.
  - destruct (isDev config); reflexivity.
  - destruct (isMountedRef p); [split|]; reflexivity.
  - destruct (isMountedRef p) eqn:Hmounted; simpl; rewrite ?Hmounted; reflexivity.
Qed.

Lemma getClientSecret_unconfigured_witness :
  workflow_missing placeholder
  /\ result_of (getClientSecret some_engine placeholder None
                  (fetch_rejects (TypeError (js "Failed to fetch"))) mount)
     = Throw (new_Error configuration_detail).
Proof.
  assert (Hmissing : workflow_missing placeholder).
  { right. right. exists (js "wf_replace_with_your_workflow_id").
    split; reflexivity. }
  split; [exact Hmissing|].
  exact (proj1 (getClientSecret_unconfigured some_engine placeholder None
                  (fetch_rejects (TypeError (js "Failed to fetch"))) mount
                  Hmissing)).
Defined.

(** ** What [getClientSecret] touches *)

Lemma getClientSecret_until_fetch_calls config currentSecret p :
  calls_of (getClientSecret_until_fetch config currentSecret p)
  = (if isDev config
     then [call_console console_info (js "[ChatKitPanel] getClientSecret invoked")]
     else [])
    ++ (if isWorkflowConfigured config
        then [call_fetch (CREATE_SESSION_ENDPOINT config) (WORKFLOW_ID config)]
        else []).
Proof.
  unfold getClientSecret_until_fetch, calls_of. exec.
  destruct (isDev config), (isWorkflowConfigured config),
    (isMountedRef p) eqn:Hmounted, (truthy_text currentSecret);
    simpl; rewrite ?Hmounted; reflexivity.
Qed.

Lemma console_is_no_fetch (calls : list Call) :
  forallb is_console calls = true -> List.filter is_fetch calls = [].
Proof.
  induction calls as [|c calls IH]; [reflexivity|].
  simpl. intros [Hc Hcalls]%andb_prop. destruct c; try discriminate. auto.
Qed.

Lemma console_or_fetch (calls : list Call) :
  forallb is_console calls = true ->
  forallb (fun c => is_console c || is_fetch c) calls = true.
Proof.
  induction calls as [|c calls IH]; [reflexivity|].
  simpl. intros [-> Hcalls]%andb_prop. auto.
Qed.

Lemma getClientSecret_frame_whole E config currentSecret reply :
  preserves beyond_error_surface (getClientSecret E config currentSecret reply).
Proof.
  unfold getClientSecret. apply preserves_bind.
  - apply getClientSecret_until_fetch_frame.
  - intros [[]|e]; [apply getClientSecret_after_fetch_frame | apply preserves_ret].
Qed.

Lemma getClientSecret_unmounted_whole E config currentSecret reply :
  preserves unmounted_state (getClientSecret E config currentSecret reply).
Proof.
  unfold getClientSecret. apply preserves_bind.
  - apply getClientSecret_until_fetch_unmounted.
  - intros [[]|e]; [apply getClientSecret_after_fetch_unmounted | apply preserves_ret].
Qed.

(** C9, as stated, fails: on a negotiation that the backend refuses,
    [getClientSecret] itself sets the error message and clears the
    initializing flag. *)
Lemma getClientSecret_writes_error_surface :
  let r := getClientSecret some_engine configured None rate_limited mount in
  message (errors mount) = None
  /\ message (errors (state_of r)) = Some (js "rate_limited")
  /\ isInitializingSession mount = true
  /\ isInitializingSession (state_of r) = false.
Proof. vm_compute. repeat split. Qed.

(** C9, amended.  A call of [getClientSecret] makes at most one request and
    otherwise only console calls; it never touches the processed-facts set,
    the generation, the auto-start guard or [isMountedRef]; it does write the
    error message and the initializing flag itself, and only while
    [isMountedRef] is up: a panel whose [isMountedRef] is down is left as it
    is. *)
Theorem getClientSecret_touches_error_surface_only (E : Engine) (config : Config)
    (currentSecret : option jsstring) (reply : NetworkReply) (p : Panel) :
  let r := getClientSecret E config currentSecret reply p in
  beyond_error_surface (state_of r) = beyond_error_surface p
  /\ (if isMountedRef p then True else state_of r = p)
  /\ length (List.filter is_fetch (calls_of r)) <= 1
  /\ forallb (fun c => is_console c || is_fetch c) (calls_of r) = true.
Proof.
  intros r. subst r. split; [apply getClientSecret_frame_whole|]. split.
  { pose proof (getClientSecret_unmounted_whole E config currentSecret reply p) as H.
    unfold unmounted_state in H. destruct (isMountedRef p); [exact I|].
    destruct (isMountedRef (state_of _)); congruence. }
  assert (Hrest : forall (started : Completion unit) q,
             forallb is_console
               (calls_of (match started with
                          | Throw e => mret (Throw e)
                          | Normal _ =>
                              getClientSecret_after_fetch E config currentSecret reply
                          end q)) = true).
  { intros [[]|e] q; [apply getClientSecret_after_fetch_calls | reflexivity]. }
  unfold getClientSecret. rewrite bind_calls, getClientSecret_until_fetch_calls.
  rewrite !List.filter_app, !length_app, !forallb_app.
  rewrite (console_is_no_fetch _ (Hrest _ _)).
  split.
  - destruct (isDev config), (isWorkflowConfigured config); simpl; lia.
  - rewrite (console_or_fetch _ (Hrest _ _)).
    destruct (isDev config), (isWorkflowConfigured config); reflexivity.
Qed.

(** ** A response without a client secret *)

Lemma truthy_text_falsy (currentSecret : option jsstring) :
  negb (truthy_text currentSecret) = true -> truthy_text currentSecret = false.
Proof. destruct (truthy_text currentSecret); [discriminate | reflexivity]. Qed.

(** In the current revision a payload other than [null] that has no truthy
    [client_secret] fails with the message of the specification. *)
Lemma getClientSecret_after_fetch_missing_secret E config currentSecret
    response raw parsed p :
  ok response = true ->
  is_nullish (data_of raw parsed) = false ->
  truthy (property (data_of raw parsed) (js "client_secret")) = false ->
  let r := getClientSecret_after_fetch E config currentSecret
             (body_read response raw parsed) p in
  result_of r = Throw (new_Error missing_secret)
  /\ (if isMountedRef p then message (errors (state_of r)) = Some missing_secret
      else state_of r = p).
Proof.
  intros Hok Hdata Hsecret. unfold data_of in *.
  unfold getClientSecret_after_fetch, getClientSecret_try, getClientSecret_catch,
    getClientSecret_finally, Get, result_of, state_of.
  rewrite Hok. exec.
  destruct (isDev config), (negb (bool_decide (raw = []))), parsed as [v|e];
    simpl in *; rewrite ?Hdata, ?Hsecret; simpl;
    destruct (isMountedRef p) eqn:Hmounted; simpl; rewrite ?Hmounted; simpl;
    destruct (truthy_text currentSecret); simpl; split; reflexivity.
Qed.

(** In the earlier revision every payload without a truthy [client_secret]
    does, [null] included. *)
Lemma earlier_getClientSecret_after_fetch_missing_secret config currentSecret
    response raw parsed p :
  ok response = true ->
  truthy (Get_optional (data_of raw parsed) (js "client_secret")) = false ->
  let r := Earlier.getClientSecret_after_fetch config currentSecret
             (body_read response raw parsed) p in
  result_of r = Throw (new_Error missing_secret)
  /\ (if isMountedRef p then message (errors (state_of r)) = Some missing_secret
      else state_of r = p).
Proof.
  intros Hok Hsecret. unfold data_of in *.
  unfold Earlier.getClientSecret_after_fetch, Earlier.getClientSecret_try,
    getClientSecret_catch, getClientSecret_finally, result_of, state_of.
  rewrite Hok. exec.
  destruct (isDev config), (negb (bool_decide (raw = []))), parsed as [v|e];
    simpl in *; rewrite ?Hsecret; simpl;
    destruct (isMountedRef p) eqn:Hmounted; simpl; rewrite ?Hmounted; simpl;
    destruct (truthy_text currentSecret); simpl; split; reflexivity.
Qed.

Lemma getClientSecret_empty_object_body (E : Engine) :
  let r := getClientSecret E configured None empty_object_body mount in
  result_of r = Throw (new_Error missing_secret)
  /\ message (errors (state_of r)) = Some missing_secret
  /\ isInitializingSession (state_of r) = false.
Proof. vm_compute. repeat split. Qed.

(** C5 at HTTP 200 with body [null].  The current revision reads
    [data.client_secret] from [null]: the negotiation fails with the engine's
    TypeError, whose message is surfaced, and not with "Missing client secret
    in response".  The earlier revision, reading [data?.client_secret],
    fails with that message. *)
Theorem getClientSecret_null_body (E : Engine) :
  let r := getClientSecret E configured None null_body mount in
  let r' := Earlier.getClientSecret configured None null_body mount in
  result_of r = Throw (TypeError (nullish_read_message E VNull (js "client_secret")))
  /\ message (errors (state_of r))
     = Some (nullish_read_message E VNull (js "client_secret"))
  /\ result_of r <> Throw (new_Error missing_secret)
  /\ result_of r' = Throw (new_Error missing_secret)
  /\ message (errors (state_of r')) = Some missing_secret.
Proof.
  intros r r'.
  assert (Hr : result_of r
               = Throw (TypeError (nullish_read_message E VNull (js "client_secret")))).
  { vm_compute. reflexivity. }
  split; [exact Hr|]. split; [vm_compute; reflexivity|].
  split; [rewrite Hr; vm_compute; discriminate|].
  split; vm_compute; reflexivity.
Qed.

(** ** The detail of a refused negotiation *)

(** A response whose status is not a success makes the negotiation fail with
    the extracted detail, which becomes the error message while
    [isMountedRef] is up. *)
Lemma getClientSecret_after_fetch_refused E config currentSecret
    status statusText raw parsed p :
  let r := getClientSecret_after_fetch E config currentSecret
             (body_read {| ok := false; status := status; statusText := statusText |}
                raw parsed) p in
  let detail := extractErrorDetail (data_of raw parsed) statusText in
  result_of r = Throw (new_Error detail)
  /\ (if isMountedRef p then message (errors (state_of r)) = Some detail
      else state_of r = p).
Proof.
  unfold data_of.
  unfold getClientSecret_after_fetch, getClientSecret_try, getClientSecret_catch,
    getClientSecret_finally, result_of, state_of.
  exec.
  destruct (isDev config), (negb (bool_decide (raw = []))), parsed as [v|e];
    simpl; destruct (isMountedRef p) eqn:Hmounted; simpl; rewrite ?Hmounted; simpl;
    destruct (truthy_text currentSecret); simpl; split; reflexivity.
Qed.

(** C2.  For every payload and status text, [extractErrorDetail] returns the
    first match of the ordered fallback of the specification: a string
    [error]; an object [error] with a string [message]; a string [details];
    inside an object [details], a string [error] or an [error] object with a
    string [message]; a string top-level [message]; otherwise the status
    text.  The earlier revision returns the same.  That detail is what a
    refused negotiation throws and, while [isMountedRef] is up, shows.  For
    the payload [{"details":{"error":{"message":X}}}] the detail is [X]. *)
Theorem extractErrorDetail_first_match :
  (forall payload statusText,
      extractErrorDetail payload statusText = Fallback.detail payload statusText
      /\ Earlier.extractErrorDetail payload statusText
         = Fallback.detail payload statusText)
  /\ (forall E config currentSecret status statusText raw parsed p,
         let r := getClientSecret_after_fetch E config currentSecret
                    (body_read {| ok := false; status := status;
                                  statusText := statusText |} raw parsed) p in
         let detail := Fallback.detail (data_of raw parsed) statusText in
         result_of r = Throw (new_Error detail)
         /\ (if isMountedRef p then message (errors (state_of r)) = Some detail
             else state_of r = p))
  /\ (forall X statusText,
         extractErrorDetail
           (VObj [(js "details",
                   VObj [(js "error", VObj [(js "message", VStr X)])])])
           statusText = X).
Proof.
  split; [|split].
  - intros payload statusText. split.
    + apply extractErrorDetail_fallback_order.
    + rewrite earlier_extractErrorDetail. apply extractErrorDetail_fallback_order.
  - intros E config currentSecret status statusText raw parsed p.
    rewrite <- extractErrorDetail_fallback_order.
    apply getClientSecret_after_fetch_refused.
  - intros X statusText. rewrite extractErrorDetail_fallback_order. reflexivity.
Qed.

(** ** Tool dispatch: [switch_theme] *)

(** C6.  A [switch_theme] invocation whose [theme] parameter is not exactly
    the string ["light"] or ["dark"] returns [{success: false}], calls
    nothing and changes nothing; when it is one of the two, [onThemeRequest]
    is called once, with that scheme, and [{success: true}] is returned. *)
Theorem onClientTool_switch_theme (E : Engine) (config : Config)
    (given : list (jsstring * value)) (p : Panel) :
  let r := onClientTool E config (switch_theme given) p in
  state_of r = p
  /\ match named_scheme (property (VObj given) (js "theme")) with
     | Some scheme =>
         result_of r = Normal {| success := true |}
         /\ List.filter is_themeRequest (calls_of r) = [call_onThemeRequest scheme]
         /\ forallb (fun c => is_themeRequest c || is_console c) (calls_of r) = true
     | None =>
         result_of r = Normal {| success := false |} /\ calls_of r = []
     end.
Proof.
  intros r. subst r. unfold onClientTool, switch_theme.
  cbn [name params]. rewrite bool_decide_eq_true_2 by reflexivity.
  generalize (property (VObj given) (js "theme")). intros theme.
  unfold strict_equals_string, named_scheme.
  destruct theme as [| |b|n|s|items|fields]; try (split; [|split]; reflexivity).
  destruct (decide (s = js "light")) as [->|Hlight].
  { rewrite bool_decide_eq_true_2 by reflexivity. exec.
    destruct (isDev config); repeat split. }
  rewrite (bool_decide_eq_false_2 _ Hlight).
  destruct (decide (s = js "dark")) as [->|Hdark].
  { rewrite bool_decide_eq_true_2 by reflexivity. exec.
    destruct (isDev config); repeat split. }
  rewrite (bool_decide_eq_false_2 _ Hdark). repeat split.
Qed.

(** ** Events, one at a time *)

Ltac unfold_handlers :=
  unfold handle, getClientSecret_until_fetch, getClientSecret_after_fetch,
    getClientSecret_try, getClientSecret_catch, getClientSecret_finally,
    onClientTool, onResponseEnd, onResponseStart, onThreadChange, onError,
    autoStart, autoStart_catch, unmount, handleResetChat;
  unfold_setters.

Lemma saves_app (id : jsstring) (calls1 calls2 : list Call) :
  saves id (calls1 ++ calls2) = saves id calls1 + saves id calls2.
Proof. unfold saves. rewrite List.filter_app. apply length_app. Qed.

Lemma sends_app (calls1 calls2 : list Call) :
  sends (calls1 ++ calls2) = sends calls1 + sends calls2.
Proof. unfold sends. rewrite List.filter_app. apply length_app. Qed.

Lemma no_widgetAction_saves (id : jsstring) (calls : list Call) :
  forallb no_widgetAction calls = true -> saves id calls = 0.
Proof.
  unfold saves. induction calls as [|c calls IH]; [reflexivity|].
  simpl. intros [Hc Hcalls]%andb_prop. destruct c; try discriminate; auto.
Qed.

Lemma no_send_sends (calls : list Call) :
  forallb no_send calls = true -> sends calls = 0.
Proof.
  unfold sends. induction calls as [|c calls IH]; [reflexivity|].
  simpl. intros [Hc Hcalls]%andb_prop. destruct c; try discriminate; auto.
Qed.

Section Steps.

Context (E : Engine) (config : Config).

(** Only [onClientTool], a thread change and a reset touch the processed
    facts or reach [onWidgetAction]. *)
Lemma handle_keeps_facts (ev : Event) :
  starts_thread ev = false ->
  match ev with widget_onClientTool _ => False | _ => True end ->
  preserves processedFacts (handle E config ev)
  /\ emits no_widgetAction (handle E config ev).
Proof.
  intros Hthread Hnot_tool.
  destruct ev; try discriminate; try destruct Hnot_tool;
    split; unfold_handlers; walk.
Qed.

(** Only the auto-start effect, a thread change and a reset touch the
    auto-start guard; only the effect reaches [sendUserMessage]. *)
Lemma handle_keeps_guard (ev : Event) :
  starts_thread ev = false ->
  match ev with effect_autoStart _ => False | _ => True end ->
  preserves hasAutoStartedRef (handle E config ev)
  /\ emits no_send (handle E config ev).
Proof.
  intros Hthread Hnot_effect.
  destruct ev; try discriminate; try destruct Hnot_effect;
    split; unfold_handlers; walk.
Qed.

(** Only a reset changes the generation. *)
Lemma handle_keeps_generation (ev : Event) :
  match ev with overlay_onRetry => False | _ => True end ->
  preserves widgetInstanceKey (handle E config ev).
Proof.
  intros Hnot_retry.
  destruct ev; try destruct Hnot_retry; unfold_handlers; walk.
Qed.

End Steps.

Section Dispatch.

Context (E : Engine) (config : Config).

(** A tool invocation either leaves the processed facts alone and does not
    reach [onWidgetAction], or records one new fact and hands it over once,
    the fact being in the set when the handler is called. *)
Lemma onClientTool_facts (invocation : Invocation) (p : Panel) :
  let r := onClientTool E config invocation p in
  (processedFacts (state_of r) = processedFacts p
   /\ forallb no_widgetAction (calls_of r) = true)
  \/ (exists a,
         (factId a ∉ processedFacts p)
         /\ processedFacts (state_of r) = {[ factId a ]} ∪ processedFacts p
         /\ r.2 = [{| made := call_onWidgetAction a; found := state_of r |}]).
Proof.
  intros r. subst r. unfold onClientTool.
  destruct (bool_decide (name invocation = js "switch_theme")).
  { left. destruct (_ || _); exec; [destruct (isDev config)|]; split; reflexivity. }
  destruct (bool_decide (name invocation = js "record_fact"));
    [|left; split; reflexivity].
  destruct (ToString E _) as [id|e]; [|left; split; reflexivity].
  destruct (ToString E _) as [text|e]; [|left; split; reflexivity].
  exec. destruct (bool_decide (id = [])); simpl; [left; split; reflexivity|].
  destruct (bool_decide (id ∈ processedFacts p)) eqn:Hknown; simpl;
    [left; split; reflexivity|].
  right. exists {| factId := id; factText := normalize_fact_text text |}.
  apply bool_decide_eq_false_1 in Hknown. repeat split. exact Hknown.
Qed.

(** The auto-start effect sends when the render is ready and the guard is
    down, and then raises the guard before the send. *)
Lemma autoStart_cases (r : Render) (p : Panel) :
  autoStart r p
  = if is_ready r && negb (hasAutoStartedRef p)
    then
      let raised := {| processedFacts := processedFacts p; errors := errors p;
                       isInitializingSession := isInitializingSession p;
                       widgetInstanceKey := widgetInstanceKey p;
                       isMountedRef := isMountedRef p;
                       hasAutoStartedRef := true |} in
      (tt, raised,
       [{| made := call_sendUserMessage (default [] (autoStartText r)) true;
           found := raised |}])
    else (tt, p, []).
Proof.
  unfold autoStart, is_ready.
  destruct (control r), (sendUserMessage r), (truthy_text (autoStartText r));
    try reflexivity.
  exec. destruct (hasAutoStartedRef p); reflexivity.
Qed.

End Dispatch.

(** ** Fact records within one thread lifetime *)

Lemma no_widgetAction_recorded_first (l : list Occurrence) :
  forallb no_widgetAction (made <$> l) = true -> Forall recorded_first l.
Proof.
  induction l as [|o l IH]; [constructor|].
  simpl. intros [Ho Hl]%andb_prop. constructor; [|auto].
  unfold recorded_first. destruct (made o); try exact I. discriminate.
Qed.

Section Thread.

Context (E : Engine) (config : Config).

Lemma run_cons (ev : Event) (evs : list Event) (p : Panel) :
  run E config (ev :: evs) p
  = (tt, state_of (run E config evs (state_of (handle E config ev p))),
     (handle E config ev p).2
     ++ (run E config evs (state_of (handle E config ev p))).2).
Proof.
  simpl. unfold mbind, M_bind, state_of.
  destruct (handle E config ev p) as [[[] p1] calls1]; simpl.
  destruct (run E config evs p1) as [[[] p2] calls2]. reflexivity.
Qed.

Lemma run_cons_calls (ev : Event) (evs : list Event) (p : Panel) :
  calls_of (run E config (ev :: evs) p)
  = calls_of (handle E config ev p)
    ++ calls_of (run E config evs (state_of (handle E config ev p))).
Proof. rewrite run_cons. unfold calls_of. simpl. apply fmap_app. Qed.

(** One event of a thread lifetime: the processed facts only grow, and a
    fact is handed to [onWidgetAction] only when it enters them. *)
Lemma handle_saves (ev : Event) (p : Panel) (id : jsstring) :
  starts_thread ev = false ->
  let r := handle E config ev p in
  processedFacts p ⊆ processedFacts (state_of r)
  /\ (saves id (calls_of r) = 0
      \/ (saves id (calls_of r) = 1
          /\ (id ∉ processedFacts p) /\ id ∈ processedFacts (state_of r))).
Proof.
  intros Hthread r. subst r.
  destruct ev as [| |invocation| | | | | | | |];
    try (destruct (handle_keeps_facts E config _ Hthread I) as [Hfacts Hcalls];
         rewrite Hfacts; split; [reflexivity|left];
         apply no_widgetAction_saves, Hcalls).
  cbn [handle]. rewrite ignore_result_state, ignore_result_calls.
  destruct (onClientTool_facts E config invocation p)
    as [[Hfacts Hnone] | (a & Hnew & Hfacts & Hcall)].
  - rewrite Hfacts. split; [reflexivity|left]. apply no_widgetAction_saves, Hnone.
  - rewrite Hfacts. split; [apply union_subseteq_r|].
    unfold calls_of. rewrite Hcall. unfold saves. simpl.
    destruct (decide (factId a = id)) as [<-|Hother].
    + rewrite bool_decide_eq_true_2 by reflexivity. right.
      split; [reflexivity|]. split; [exact Hnew|].
      apply elem_of_union_l, elem_of_singleton_2. reflexivity.
    + rewrite bool_decide_eq_false_2 by exact Hother. left. reflexivity.
Qed.

Lemma run_saves (evs : list Event) (id : jsstring) :
  keeps_thread evs = true ->
  forall p,
    saves id (calls_of (run E config evs p))
    <= (if bool_decide (id ∈ processedFacts p) then 0 else 1).
Proof.
  induction evs as [|ev evs IH]; intros Hkeeps p.
  { change (saves id (calls_of (run E config [] p))) with 0. lia. }
  simpl in Hkeeps. apply andb_prop in Hkeeps as [Hev%negb_true_iff Hevs].
  rewrite run_cons_calls, saves_app.
  destruct (handle_saves ev p id Hev) as [Hgrow [Hnone | (Hone & Hnew & Hthen)]].
  - specialize (IH Hevs (state_of (handle E config ev p))).
    rewrite Hnone. destruct (bool_decide (id ∈ processedFacts p)) eqn:Hknown.
    + apply bool_decide_eq_true_1 in Hknown.
      rewrite bool_decide_eq_true_2 in IH by set_solver. lia.
    + destruct (bool_decide _) in IH; lia.
  - specialize (IH Hevs (state_of (handle E config ev p))).
    rewrite bool_decide_eq_true_2 in IH by exact Hthen.
    rewrite (bool_decide_eq_false_2 _ Hnew). lia.
Qed.

Lemma handle_recorded_first (ev : Event) (p : Panel) :
  Forall recorded_first (handle E config ev p).2.
Proof.
  destruct ev as [| |invocation| | | | | | | |];
    try (apply no_widgetAction_recorded_first;
         match goal with
         | |- context [handle E config ?ev p] =>
             exact (proj2 (handle_keeps_facts E config ev eq_refl I) p)
         end).
  - cbn [handle]. rewrite ignore_result_occurrences.
    destruct (onClientTool_facts E config invocation p)
      as [[Hfacts Hnone] | (a & Hnew & Hfacts & Hcall)].
    + apply no_widgetAction_recorded_first, Hnone.
    + rewrite Hcall. constructor; [|constructor].
      unfold recorded_first. simpl. rewrite Hfacts.
      apply elem_of_union_l, elem_of_singleton_2. reflexivity.
  - apply no_widgetAction_recorded_first.
    generalize p.
    change (emits no_widgetAction (handle E config widget_onThreadChange)).
    unfold_handlers. walk.
  - apply no_widgetAction_recorded_first.
    generalize p.
    change (emits no_widgetAction (handle E config overlay_onRetry)).
    unfold handle, onRetry. apply emits_bind; [apply emits_read|].
    intros q. destruct (hasError q); unfold_handlers; walk.
Qed.

Lemma run_recorded_first (evs : list Event) (p : Panel) :
  Forall recorded_first (run E config evs p).2.
Proof.
  revert p. induction evs as [|ev evs IH]; intros p; [constructor|].
  rewrite run_cons. simpl. apply Forall_app. split.
  - apply handle_recorded_first.
  - apply IH.
Qed.

End Thread.

(** C1.  Over any run of events within one thread lifetime (no thread change
    and no reset among them), whatever the state it starts from,
    [onWidgetAction] is called at most once for each fact id; and whenever
    it is called the id is already among the processed facts.  The handler's
    promise is dropped, so its settlement is no event and cannot matter. *)
Theorem record_fact_at_most_once (E : Engine) (config : Config)
    (evs : list Event) (p : Panel) (id : jsstring) :
  keeps_thread evs = true ->
  saves id (calls_of (run E config evs p)) <= 1
  /\ Forall recorded_first (run E config evs p).2.
Proof.
  intros Hkeeps. split; [|apply run_recorded_first].
  pose proof (run_saves E config evs id Hkeeps p) as H.
  destruct (bool_decide _) in H; lia.
Qed.

(** Two [record_fact] calls with id ["f1"] in a row: the handler runs once. *)
Lemma record_fact_twice :
  let tool := widget_onClientTool
                (record_fact (VStr (js "f1")) (VStr (js " a  fact "))) in
  calls_of (run some_engine configured [tool; tool] mount)
  = [call_onWidgetAction {| factId := js "f1"; factText := js "a fact" |}].
Proof. vm_compute. reflexivity. Qed.

Lemma record_fact_at_most_once_witness :
  let tool := widget_onClientTool
                (record_fact (VStr (js "f1")) (VStr (js " a  fact "))) in
  keeps_thread [tool; tool] = true
  /\ saves (js "f1") (calls_of (run some_engine configured [tool; tool] mount)) <= 1.
Proof.
  intros tool. split; [reflexivity|].
  exact (proj1 (record_fact_at_most_once some_engine configured [tool; tool] mount
                  (js "f1") eq_refl)).
Defined.

(** ** The auto-start guard *)

Lemma no_send_raised_first (l : list Occurrence) :
  forallb no_send (made <$> l) = true -> Forall raised_first l.
Proof.
  induction l as [|o l IH]; [constructor|].
  simpl. intros [Ho Hl]%andb_prop. constructor; [|auto].
  unfold raised_first. destruct (made o); try exact I. discriminate.
Qed.

Section Guard.

Context (E : Engine) (config : Config).

(** One event of a thread lifetime: the guard goes up when a ready effect
    runs, and that effect sends only if the guard was down. *)
Lemma handle_guard (ev : Event) (p : Panel) :
  starts_thread ev = false ->
  hasAutoStartedRef (state_of (handle E config ev p))
  = hasAutoStartedRef p || fires ev
  /\ sends (calls_of (handle E config ev p))
     = (if negb (hasAutoStartedRef p) && fires ev then 1 else 0).
Proof.
  intros Hthread.
  destruct ev as [| | | | | | | |r| |];
    try (destruct (handle_keeps_guard E config _ Hthread I) as [Hguard Hcalls];
         rewrite Hguard, (no_send_sends _ (Hcalls p)); cbn [fires];
         rewrite orb_false_r, andb_false_r; split; reflexivity).
  cbn [handle fires]. rewrite autoStart_cases.
  destruct (is_ready r), (hasAutoStartedRef p) eqn:Hguard;
    unfold state_of, calls_of; simpl; rewrite ?Hguard; split; reflexivity.
Qed.

Lemma run_sends (evs : list Event) :
  keeps_thread evs = true ->
  forall p,
    sends (calls_of (run E config evs p))
    = (if negb (hasAutoStartedRef p) && existsb fires evs then 1 else 0).
Proof.
  induction evs as [|ev evs IH]; intros Hkeeps p.
  { rewrite andb_false_r. reflexivity. }
  simpl in Hkeeps. apply andb_prop in Hkeeps as [Hev%negb_true_iff Hevs].
  rewrite run_cons_calls, sends_app, (IH Hevs).
  destruct (handle_guard ev p Hev) as [-> ->]. simpl.
  destruct (hasAutoStartedRef p), (fires ev), (existsb fires evs); reflexivity.
Qed.

Lemma handle_raised_first (ev : Event) (p : Panel) :
  Forall raised_first (handle E config ev p).2.
Proof.
  destruct ev as [| | | | | | | |r| |];
    try (apply no_send_raised_first;
         match goal with
         | |- context [handle E config ?ev p] =>
             exact (proj2 (handle_keeps_guard E config ev eq_refl I) p)
         end).
  - apply no_send_raised_first. generalize p.
    change (emits no_send (handle E config widget_onThreadChange)).
    unfold_handlers. walk.
  - apply no_send_raised_first. generalize p.
    change (emits no_send (handle E config overlay_onRetry)).
    unfold handle, onRetry. apply emits_bind; [apply emits_read|].
    intros q. destruct (hasError q); unfold_handlers; walk.
  - cbn [handle]. rewrite autoStart_cases.
    destruct (_ && _); repeat constructor.
Qed.

Lemma run_raised_first (evs : list Event) (p : Panel) :
  Forall raised_first (run E config evs p).2.
Proof.
  revert p. induction evs as [|ev evs IH]; intros p; [constructor|].
  rewrite run_cons. simpl. apply Forall_app. split.
  - apply handle_raised_first.
  - apply IH.
Qed.

Lemma run_keeps_generation (evs : list Event) :
  keeps_thread evs = true ->
  forall p,
    widgetInstanceKey (state_of (run E config evs p)) = widgetInstanceKey p.
Proof.
  induction evs as [|ev evs IH]; intros Hkeeps p; [reflexivity|].
  simpl in Hkeeps. apply andb_prop in Hkeeps as [Hev%negb_true_iff Hevs].
  rewrite run_cons. unfold state_of at 1. simpl. rewrite (IH Hevs).
  apply handle_keeps_generation. destruct ev; try exact I. discriminate.
Qed.

(** When the send rejects, the failure text becomes the error message and
    nothing else changes. *)
Lemma autoStart_catch_run (error : Thrown) (p : Panel) :
  autoStart_catch error p
  = (tt,
     {| processedFacts := processedFacts p;
        errors := {| message := Some auto_start_failure |};
        isInitializingSession := isInitializingSession p;
        widgetInstanceKey := widgetInstanceKey p;
        isMountedRef := isMountedRef p;
        hasAutoStartedRef := hasAutoStartedRef p |},
     [{| made := call_console console_error (js "Failed to send auto-start message");
         found := p |}]).
Proof. reflexivity. Qed.

End Guard.

(** C3, as stated, fails.  A thread change clears the guard without changing
    the generation, so a later run of the effect sends the start message
    again: two sends in generation 0.  And a rejected send puts its text where
    negotiation failures put theirs: [hasError] holds and the retry is
    offered. *)
Lemma autoStart_twice_in_one_generation :
  let r := run some_engine configured
             [effect_autoStart start_render; widget_onThreadChange;
              effect_autoStart start_render] mount in
  let failed := state_of (run some_engine configured
                            [effect_autoStart start_render;
                             send_rejects (new_Error (js "send failed"))] mount) in
  calls_of r = [call_sendUserMessage (js "Start") true;
                call_sendUserMessage (js "Start") true]
  /\ (fun o => widgetInstanceKey (found o)) <$> r.2 = [0%N; 0%N]
  /\ widgetInstanceKey (state_of r) = 0%N
  /\ hasError failed = true
  /\ match onRetry failed with Some _ => true | None => false end = true.
Proof. vm_compute. repeat split. Qed.

(** C3, amended.  Between two events that clear the guard (a thread change
    or a reset), at most one automatic start message is sent; every send
    finds the guard already raised; and when the send rejects, the guard is
    left as it is, the text "Connected, but failed to send the initial
    message. You can type manually." becomes the error message (so that
    [hasError] holds), and the initializing flag, the generation and the refs
    are unchanged. *)
Theorem autoStart_once_per_thread (E : Engine) (config : Config)
    (evs : list Event) (p : Panel) :
  keeps_thread evs = true ->
  sends (calls_of (run E config evs p)) <= 1
  /\ Forall raised_first (run E config evs p).2
  /\ forall error q,
       let r := autoStart_catch error q in
       state_of r
       = {| processedFacts := processedFacts q;
            errors := {| message :=
                           Some (js "Connected, but failed to send the initial message. You can type manually.") |};
            isInitializingSession := isInitializingSession q;
            widgetInstanceKey := widgetInstanceKey q;
            isMountedRef := isMountedRef q;
            hasAutoStartedRef := hasAutoStartedRef q |}
       /\ sends (calls_of r) = 0
       /\ hasError (state_of r) = true.
Proof.
  intros Hkeeps. split; [|split].
  - rewrite (run_sends E config evs Hkeeps). destruct (_ && _); lia.
  - apply run_raised_first.
  - intros error q r. subst r. rewrite autoStart_catch_run. repeat split.
Qed.

Lemma autoStart_once_per_thread_witness :
  let evs := [effect_autoStart start_render;
              send_rejects (new_Error (js "send failed"));
              effect_autoStart start_render] in
  keeps_thread evs = true
  /\ sends (calls_of (run some_engine configured evs mount)) <= 1.
Proof.
  intros evs. split; [reflexivity|].
  exact (proj1 (autoStart_once_per_thread some_engine configured evs mount eq_refl)).
Defined.

(** ** Reset and thread change *)

Lemma handleResetChat_run (p : Panel) :
  handleResetChat p
  = (tt,
     {| processedFacts := ∅;
        errors := {| message := None |};
        isInitializingSession := true;
        widgetInstanceKey := widgetInstanceKey p + 1;
        isMountedRef := isMountedRef p;
        hasAutoStartedRef := false |},
     []).
Proof. reflexivity. Qed.

(** The earlier revision has no guard to clear. *)
Lemma earlier_handleResetChat_run (p : Panel) :
  Earlier.handleResetChat p
  = (tt,
     {| processedFacts := ∅;
        errors := {| message := None |};
        isInitializingSession := true;
        widgetInstanceKey := widgetInstanceKey p + 1;
        isMountedRef := isMountedRef p;
        hasAutoStartedRef := hasAutoStartedRef p |},
     []).
Proof. reflexivity. Qed.

(** C7, as stated, fails.  After a reset the new generation is not limited
    to one automatic start message: a thread change inside it clears the
    guard again without changing the generation, and the next run of the
    effect sends once more.  Two sends, both found at generation 1. *)
Lemma reset_then_two_sends_in_new_generation :
  let q := state_of (handleResetChat mount) in
  let r := run some_engine configured
             [effect_autoStart start_render; widget_onThreadChange;
              effect_autoStart start_render] q in
  widgetInstanceKey q = 1%N
  /\ calls_of r = [call_sendUserMessage (js "Start") true;
                   call_sendUserMessage (js "Start") true]
  /\ (fun o => widgetInstanceKey (found o)) <$> r.2 = [1%N; 1%N]
  /\ widgetInstanceKey (state_of r) = 1%N.
Proof. vm_compute. repeat split. Qed.

(** C7, amended.  [handleResetChat] adds one to the generation, empties the
    processed facts, clears the error message, sets the initializing flag
    again and clears the auto-start guard, calling nothing.  From there on,
    until the guard is cleared again (by a thread change or another reset),
    the start message is sent exactly once, by the first effect that runs
    from a ready render, and the generation stays the new one. *)
Theorem handleResetChat_restarts (E : Engine) (config : Config) (p : Panel)
    (evs : list Event) :
  keeps_thread evs = true ->
  let q := state_of (handleResetChat p) in
  widgetInstanceKey q = (widgetInstanceKey p + 1)%N
  /\ processedFacts q = ∅
  /\ message (errors q) = None
  /\ hasError q = false
  /\ isInitializingSession q = true
  /\ fallbackMessage q = Some (js "Initializing chat session...")
  /\ hasAutoStartedRef q = false
  /\ isMountedRef q = isMountedRef p
  /\ calls_of (handleResetChat p) = []
  /\ sends (calls_of (run E config evs q)) = (if existsb fires evs then 1 else 0)
  /\ widgetInstanceKey (state_of (run E config evs q)) = widgetInstanceKey q.
Proof.
  intros Hkeeps q.
  repeat (split; [reflexivity|]). split.
  - rewrite (run_sends E config evs Hkeeps). reflexivity.
  - apply (run_keeps_generation E config evs Hkeeps).
Qed.

Lemma handleResetChat_restarts_witness :
  let evs := [effect_autoStart start_render; effect_autoStart start_render] in
  let q := state_of (handleResetChat mount) in
  keeps_thread evs = true
  /\ widgetInstanceKey q = 1%N
  /\ sends (calls_of (run some_engine configured evs q)) = 1.
Proof.
  intros evs q.
  pose proof (handleResetChat_restarts some_engine configured mount evs eq_refl)
    as (Hkey & _ & _ & _ & _ & _ & _ & _ & _ & Hsends & _).
  split; [reflexivity|]. split; [exact Hkey | exact Hsends].
Defined.

(** The earlier revision clears the processed facts only. *)
Lemma earlier_onThreadChange_run (p : Panel) :
  Earlier.onThreadChange p
  = (tt,
     {| processedFacts := ∅;
        errors := errors p;
        isInitializingSession := isInitializingSession p;
        widgetInstanceKey := widgetInstanceKey p;
        isMountedRef := isMountedRef p;
        hasAutoStartedRef := hasAutoStartedRef p |},
     []).
Proof. reflexivity. Qed.

(** A fact with a non-empty id that is not among the processed ones is
    handed over once. *)
Lemma onClientTool_record_new_fact (E : Engine) (config : Config)
    (c : N) (id text : jsstring) (p : Panel) :
  (c :: id) ∉ processedFacts p ->
  calls_of (onClientTool E config (record_fact (VStr (c :: id)) (VStr text)) p)
  = [call_onWidgetAction
       {| factId := c :: id; factText := normalize_fact_text text |}].
Proof.
  intros Hnew. unfold onClientTool, record_fact. cbn [name params].
  change (bool_decide (js "record_fact" = js "switch_theme")) with false.
  change (bool_decide (js "record_fact" = js "record_fact")) with true.
  cbn iota.
  change (property (VObj [(js "fact_id", VStr (c :: id)); (js "fact_text", VStr text)])
            (js "fact_id")) with (VStr (c :: id)).
  change (property (VObj [(js "fact_id", VStr (c :: id)); (js "fact_text", VStr text)])
            (js "fact_text")) with (VStr text).
  cbn [nullish_or is_nullish ToString]. unfold calls_of. exec.
  rewrite (bool_decide_eq_false_2 _ Hnew). reflexivity.
Qed.

(** C8.  [onThreadChange] empties the processed facts and clears the
    auto-start guard; the generation, the error message, the initializing
    flag and [isMountedRef] stay as they are and nothing is called.  After
    it, a fact with any non-empty id reaches [onWidgetAction] again, whether
    or not it had been processed before. *)
Theorem onThreadChange_clears (p : Panel) :
  onThreadChange p
  = (tt,
     {| processedFacts := ∅;
        errors := errors p;
        isInitializingSession := isInitializingSession p;
        widgetInstanceKey := widgetInstanceKey p;
        isMountedRef := isMountedRef p;
        hasAutoStartedRef := false |},
     [])
  /\ forall E config c id text,
       saves (c :: id)
         (calls_of (onClientTool E config
                      (record_fact (VStr (c :: id)) (VStr text))
                      (state_of (onThreadChange p)))) = 1.
Proof.
  split; [reflexivity|]. intros E config c id text.
  rewrite onClientTool_record_new_fact by (cbn; set_solver).
  unfold saves. simpl. rewrite bool_decide_eq_true_2 by reflexivity. reflexivity.
Qed.

(** The same fact before and after a thread change: the handler runs twice. *)
Lemma record_fact_again_after_thread_change :
  let tool := widget_onClientTool
                (record_fact (VStr (js "f1")) (VStr (js "a fact"))) in
  saves (js "f1")
    (calls_of (run some_engine configured [tool; widget_onThreadChange; tool] mount))
  = 2.
Proof. vm_compute. reflexivity. Qed.

(** ** Widget errors *)

(** C10.  [onError] makes one [console.error] call and leaves the whole
    state as it is: the error message, and with it [hasError] and the retry,
    the initializing flag, the processed facts, the auto-start guard and the
    generation. *)
Theorem onError_only_logs (error : Thrown) (p : Panel) :
  onError error p
  = (tt, p, [{| made := call_console console_error (js "ChatKit error");
                found := p |}])
  /\ hasError (state_of (onError error p)) = hasError p
  /\ fallbackMessage (state_of (onError error p)) = fallbackMessage p.
Proof. repeat split. Qed.

(** * Further properties *)

(** ** Normalising a fact text *)

Lemma isWhiteSpace_space : isWhiteSpace 32 = true.
Proof. reflexivity. Qed.

Lemma trimStart_replace (in_run : bool) (s : jsstring) :
  trimStart (replace_whitespace_runs in_run s) = replace_whitespace_runs true s.
Proof.
  revert in_run. induction s as [|c rest IH]; intros in_run; [reflexivity|].
  cbn [replace_whitespace_runs]. destruct (isWhiteSpace c) eqn:Hc.
  - destruct in_run; cbn [app]; [apply IH|].
    change (js " ") with [32%N]. cbn [app trimStart].
    rewrite isWhiteSpace_space. apply IH.
  - cbn [trimStart]. rewrite Hc. reflexivity.
Qed.

Lemma replace_single_spaced (in_run : bool) (s : jsstring) :
  single_spaced in_run (replace_whitespace_runs in_run s) = true.
Proof.
  revert in_run. induction s as [|c rest IH]; intros in_run; [reflexivity|].
  cbn [replace_whitespace_runs]. destruct (isWhiteSpace c) eqn:Hc.
  - destruct in_run; cbn [app]; [apply IH|].
    change (js " ") with [32%N]. cbn [app single_spaced].
    rewrite isWhiteSpace_space. cbn. apply IH.
  - cbn [single_spaced]. rewrite Hc. apply IH.
Qed.

Lemma replace_of_single_spaced (after_space : bool) (s : jsstring) :
  single_spaced after_space s = true ->
  replace_whitespace_runs after_space s = s.
Proof.
  revert after_space. induction s as [|c rest IH]; intros after_space; [reflexivity|].
  cbn [single_spaced replace_whitespace_runs]. destruct (isWhiteSpace c).
  - intros [[Hc Hafter%negb_true_iff]%andb_prop Hrest]%andb_prop.
    apply N.eqb_eq in Hc. subst c after_space. cbn [app].
    change (js " ") with [32%N]. cbn [app]. f_equal. apply IH, Hrest.
  - intros Hrest. f_equal. apply IH, Hrest.
Qed.

Lemma trimStart_split (s : jsstring) :
  exists spaces, s = spaces ++ trimStart s.
Proof.
  induction s as [|c rest [spaces IH]]; [exists []; reflexivity|].
  cbn [trimStart]. destruct (isWhiteSpace c).
  - exists (c :: spaces). cbn [app]. f_equal. exact IH.
  - exists []. reflexivity.
Qed.

Lemma trimStart_starts_clean (s : jsstring) : starts_clean (trimStart s) = true.
Proof.
  induction s as [|c rest IH]; [reflexivity|].
  cbn [trimStart]. destruct (isWhiteSpace c) eqn:Hc; [exact IH|].
  cbn [starts_clean]. rewrite Hc. reflexivity.
Qed.

Lemma trimStart_of_starts_clean (s : jsstring) :
  starts_clean s = true -> trimStart s = s.
Proof.
  destruct s as [|c rest]; [reflexivity|]. cbn [starts_clean trimStart].
  intros ->%negb_true_iff. reflexivity.
Qed.

Lemma trimStart_single_spaced (after_space : bool) (s : jsstring) :
  single_spaced after_space s = true -> single_spaced false (trimStart s) = true.
Proof.
  revert after_space. induction s as [|c rest IH]; intros after_space; [reflexivity|].
  cbn [single_spaced trimStart]. destruct (isWhiteSpace c) eqn:Hc.
  - intros [_ Hrest]%andb_prop. apply (IH true), Hrest.
  - intros Hrest. cbn [single_spaced]. rewrite Hc. exact Hrest.
Qed.

Lemma single_spaced_prefix (after_space : bool) (s tail : jsstring) :
  single_spaced after_space (s ++ tail) = true -> single_spaced after_space s = true.
Proof.
  revert after_space. induction s as [|c rest IH]; intros after_space; [reflexivity|].
  cbn [app single_spaced]. destruct (isWhiteSpace c).
  - intros [Hc Hrest]%andb_prop. rewrite Hc. apply (IH true), Hrest.
  - apply IH.
Qed.

Lemma starts_clean_prefix (s tail : jsstring) :
  starts_clean (s ++ tail) = true -> starts_clean s = true.
Proof. destruct s; [reflexivity | exact id]. Qed.

(** The shape of a trimmed, single-spaced string, and what it gives. *)
Lemma trim_shape (t : jsstring) :
  single_spaced false t = true ->
  starts_clean (trim t) = true
  /\ starts_clean (rev (trim t)) = true
  /\ single_spaced false (trim t) = true.
Proof.
  intros Ht. unfold trim.
  destruct (trimStart_split (rev (trimStart t))) as [spaces Hsplit].
  assert (Hprefix : trimStart t = rev (trimStart (rev (trimStart t))) ++ rev spaces).
  { rewrite <- rev_app_distr, <- Hsplit, rev_involutive. reflexivity. }
  split; [|split].
  - apply (starts_clean_prefix _ (rev spaces)). rewrite <- Hprefix.
    apply trimStart_starts_clean.
  - rewrite rev_involutive. apply trimStart_starts_clean.
  - apply (single_spaced_prefix _ _ (rev spaces)). rewrite <- Hprefix.
    apply (trimStart_single_spaced false), Ht.
Qed.

Lemma normalize_fact_text_shape (text : jsstring) :
  starts_clean (normalize_fact_text text) = true
  /\ starts_clean (rev (normalize_fact_text text)) = true
  /\ single_spaced false (normalize_fact_text text) = true.
Proof. apply trim_shape, replace_single_spaced. Qed.

Lemma normalize_of_tidy (s : jsstring) :
  starts_clean s = true -> starts_clean (rev s) = true ->
  single_spaced false s = true ->
  normalize_fact_text s = s.
Proof.
  intros Hstart Hend Hspaced. unfold normalize_fact_text, trim.
  rewrite (replace_of_single_spaced false s Hspaced).
  rewrite (trimStart_of_starts_clean s Hstart).
  rewrite (trimStart_of_starts_clean (rev s) Hend).
  apply rev_involutive.
Qed.

(** X1.  Normalising a fact text twice gives what normalising it once gives. *)
Theorem normalize_fact_text_idempotent (text : jsstring) :
  normalize_fact_text (normalize_fact_text text) = normalize_fact_text text.
Proof.
  destruct (normalize_fact_text_shape text) as (Hstart & Hend & Hspaced).
  apply normalize_of_tidy.
  - exact Hstart.
  - exact Hend.
  - exact Hspaced.
Qed.

(** X2.  A normalised fact text neither begins nor ends with white space, and
    its only white space is single space characters: runs of tabs, line
    breaks, no-break spaces and the like have become one space each. *)
Theorem normalize_fact_text_tidy (text : jsstring) :
  starts_clean (normalize_fact_text text) = true
  /\ starts_clean (rev (normalize_fact_text text)) = true
  /\ single_spaced false (normalize_fact_text text) = true.
Proof. apply normalize_fact_text_shape. Qed.

(** ** Tool dispatch, whatever the tool *)

Section DispatchSteps.

Context (E : Engine) (config : Config).

(** A tool invocation either leaves the state as it is and does not reach
    [onWidgetAction], or succeeds in recording one new fact with a non-empty
    id, handing it over once with its text normalised. *)
Lemma onClientTool_step (invocation : Invocation) (p : Panel) :
  (state_of (onClientTool E config invocation p) = p
   /\ forallb no_widgetAction (calls_of (onClientTool E config invocation p)) = true)
  \/ (exists id text,
         id <> [] /\ (id ∉ processedFacts p)
         /\ onClientTool E config invocation p
            = let recorded :=
                {| processedFacts := {[ id ]} ∪ processedFacts p;
                   errors := errors p;
                   isInitializingSession := isInitializingSession p;
                   widgetInstanceKey := widgetInstanceKey p;
                   isMountedRef := isMountedRef p;
                   hasAutoStartedRef := hasAutoStartedRef p |} in
              (Normal {| success := true |}, recorded,
               [{| made := call_onWidgetAction
                             {| factId := id;
                                factText := normalize_fact_text text |};
                   found := recorded |}])).
Proof.
  unfold onClientTool.
  destruct (bool_decide (name invocation = js "switch_theme")).
  { left. destruct (_ || _); exec; [destruct (isDev config)|]; split; reflexivity. }
  destruct (bool_decide (name invocation = js "record_fact"));
    [|left; split; reflexivity].
  destruct (ToString E _) as [id|e]; [|left; split; reflexivity].
  destruct (ToString E _) as [text|e]; [|left; split; reflexivity].
  exec. destruct (bool_decide (id = [])) eqn:Hempty; simpl;
    [left; split; reflexivity|].
  destruct (bool_decide (id ∈ processedFacts p)) eqn:Hknown; simpl;
    [left; split; reflexivity|].
  right. exists id, text.
  apply bool_decide_eq_false_1 in Hempty, Hknown. repeat split; assumption.
Qed.

Lemma handle_retry_cases (p : Panel) :
  handle E config overlay_onRetry p
  = if hasError p then handleResetChat p else (tt, p, []).
Proof.
  unfold handle, onRetry. exec. destruct (hasError p); reflexivity.
Qed.

(** No event but a tool invocation reaches [onWidgetAction]. *)
Lemma handle_no_widgetAction (ev : Event) (p : Panel) :
  match ev with widget_onClientTool _ => False | _ => True end ->
  forallb no_widgetAction (calls_of (handle E config ev p)) = true.
Proof.
  intros Hnot_tool.
  destruct ev as [| |invocation| | | | | | | |]; try destruct Hnot_tool;
    try (match goal with
         | |- context [handle E config ?ev p] =>
             exact (proj2 (handle_keeps_facts E config ev eq_refl I) p)
         end).
  - reflexivity.
  - rewrite handle_retry_cases. destruct (hasError p); reflexivity.
Qed.

Lemma run_occurrences (Q : Occurrence -> Prop) :
  (forall ev p, Forall Q (handle E config ev p).2) ->
  forall evs p, Forall Q (run E config evs p).2.
Proof.
  intros Hstep evs. induction evs as [|ev evs IH]; intros p; [constructor|].
  rewrite run_cons. simpl. apply Forall_app. split; [apply Hstep | apply IH].
Qed.

Lemma run_invariant (I : Panel -> Prop) :
  (forall ev p, I p -> I (state_of (handle E config ev p))) ->
  forall evs p, I p -> I (state_of (run E config evs p)).
Proof.
  intros Hstep evs. induction evs as [|ev evs IH]; intros p Hp; [exact Hp|].
  rewrite run_cons. unfold state_of at 1. simpl. apply IH, Hstep, Hp.
Qed.

Lemma no_widgetAction_saved_tidy (l : list Occurrence) :
  forallb no_widgetAction (made <$> l) = true -> Forall saved_tidy l.
Proof.
  induction l as [|o l IH]; [constructor|].
  simpl. intros [Ho Hl]%andb_prop. constructor; [|auto].
  unfold saved_tidy. destruct (made o); try exact I. discriminate.
Qed.

End DispatchSteps.

(** X3.  Over any run of events, from any state, every fact handed to
    [onWidgetAction] has a non-empty id and a text in normal form. *)
Theorem saved_facts_are_tidy (E : Engine) (config : Config) (evs : list Event)
    (p : Panel) :
  Forall saved_tidy (run E config evs p).2.
Proof.
  revert evs p. apply run_occurrences. intros ev p.
  destruct ev as [| |invocation| | | | | | | |];
    try (apply no_widgetAction_saved_tidy;
         match goal with
         | |- context [handle E config ?ev p] =>
             exact (handle_no_widgetAction E config ev p I)
         end).
  cbn [handle]. rewrite ignore_result_occurrences.
  destruct (onClientTool_step E config invocation p)
    as [[_ Hnone] | (id & text & Hid & _ & ->)].
  - apply no_widgetAction_saved_tidy, Hnone.
  - constructor; [|constructor]. unfold saved_tidy. cbn. split; [exact Hid|].
    destruct (normalize_fact_text_shape text) as (Hstart & Hend & Hspaced).
    apply normalize_of_tidy; assumption.
Qed.

(** X4.  The empty id never enters the processed facts: if it is not among
    them, it is not among them after any run of events. *)
Theorem empty_id_never_processed (E : Engine) (config : Config)
    (evs : list Event) (p : Panel) :
  [] ∉ processedFacts p ->
  [] ∉ processedFacts (state_of (run E config evs p)).
Proof.
  intros Hstart.
  apply (run_invariant E config (fun q => [] ∉ processedFacts q)); [|exact Hstart].
  clear p Hstart. intros ev p Hp.
  destruct ev as [| |invocation| | | | | | | |];
    try (match goal with
         | |- context [handle E config ?ev p] =>
             rewrite (proj1 (handle_keeps_facts E config ev eq_refl I) p); exact Hp
         end).
  - cbn [handle]. rewrite ignore_result_state.
    destruct (onClientTool_step E config invocation p)
      as [[-> _] | (id & text & Hid & _ & ->)]; [exact Hp|].
    unfold state_of. cbn. rewrite elem_of_union, elem_of_singleton.
    intros [Hempty | Hin]; [apply Hid; symmetry; exact Hempty | exact (Hp Hin)].
  - cbn. apply not_elem_of_empty.
  - rewrite handle_retry_cases. destruct (hasError p); [|exact Hp].
    cbn. apply not_elem_of_empty.
Qed.

Lemma empty_id_never_processed_witness :
  let tool := widget_onClientTool (record_fact (VStr []) (VStr (js "a fact"))) in
  ([] ∉ processedFacts mount)
  /\ ([] ∉ processedFacts (state_of (run some_engine configured [tool; tool] mount))).
Proof.
  intros tool.
  assert (Hmount : [] ∉ processedFacts mount) by apply not_elem_of_empty.
  split; [exact Hmount|].
  exact (empty_id_never_processed some_engine configured [tool; tool] mount Hmount).
Defined.

Lemma tool_names_differ : js "switch_theme" <> js "record_fact".
Proof. vm_compute. discriminate. Qed.

(** X5.  A tool invocation answered with [{success: false}] has had no
    effect: the state is as before and nothing was called; and it was not a
    [record_fact], which never answers so. *)
Theorem failed_tool_has_no_effect (E : Engine) (config : Config)
    (invocation : Invocation) (p : Panel) :
  result_of (onClientTool E config invocation p) = Normal {| success := false |} ->
  state_of (onClientTool E config invocation p) = p
  /\ calls_of (onClientTool E config invocation p) = []
  /\ name invocation <> js "record_fact".
Proof.
  unfold onClientTool.
  destruct (bool_decide (name invocation = js "switch_theme")) eqn:Htheme.
  { apply bool_decide_eq_true_1 in Htheme.
    destruct (_ || _).
    - exec. destruct (isDev config); discriminate.
    - intros _. repeat split. rewrite Htheme. apply tool_names_differ. }
  destruct (bool_decide (name invocation = js "record_fact")) eqn:Hfact.
  - destruct (ToString E _) as [id|e]; [|discriminate].
    destruct (ToString E _) as [text|e]; [|discriminate].
    exec. destruct (bool_decide (id = [])); simpl; [discriminate|].
    destruct (bool_decide (id ∈ processedFacts p)); discriminate.
  - intros _. apply bool_decide_eq_false_1 in Hfact. repeat split. exact Hfact.
Qed.

Lemma failed_tool_has_no_effect_witness :
  let invocation := {| name := js "open_door"; params := [] |} in
  result_of (onClientTool some_engine configured invocation mount)
  = Normal {| success := false |}
  /\ state_of (onClientTool some_engine configured invocation mount) = mount.
Proof.
  intros invocation. split; [reflexivity|].
  exact (proj1 (failed_tool_has_no_effect some_engine configured invocation mount
                  eq_refl)).
Defined.

(** X6.  A [record_fact] whose [fact_id] is absent, [undefined], [null] or
    the empty string is answered with [{success: true}] and does nothing,
    provided its [fact_text] converts to a string; otherwise the conversion's
    error is thrown, and still nothing is done. *)
Theorem record_fact_without_id (E : Engine) (config : Config)
    (given : list (jsstring * value)) (p : Panel) :
  match own (js "fact_id") given with
  | None | Some VUndefined | Some VNull | Some (VStr []) => True
  | _ => False
  end ->
  onClientTool E config (record_fact_call given) p
  = match ToString E (nullish_or (property (VObj given) (js "fact_text")) (VStr [])) with
    | Normal _ => (Normal {| success := true |}, p, [])
    | Throw e => (Throw e, p, [])
    end.
Proof.
  intros Hid. unfold onClientTool, record_fact_call. cbn [name params].
  change (bool_decide (js "record_fact" = js "switch_theme")) with false.
  change (bool_decide (js "record_fact" = js "record_fact")) with true.
  cbn iota. cbn [property].
  assert (Hcoerced : ToString E (nullish_or (default VUndefined
                                               (own (js "fact_id") given)) (VStr []))
                     = Normal []).
  { destruct (own (js "fact_id") given) as [[| | | |[|c s]| |]|];
      try destruct Hid; reflexivity. }
  rewrite Hcoerced. clear Hcoerced.
  destruct (ToString E (nullish_or (default VUndefined
                                      (own (js "fact_text") given)) (VStr [])))
    as [text|e]; reflexivity.
Qed.

Lemma record_fact_without_id_witness :
  let given := [(js "fact_text", VStr (js "no id"))] in
  match own (js "fact_id") given with
  | None | Some VUndefined | Some VNull | Some (VStr []) => True
  | _ => False
  end
  /\ onClientTool some_engine configured (record_fact_call given) mount
     = (Normal {| success := true |}, mount, []).
Proof.
  intros given. split; [exact I|].
  exact (record_fact_without_id some_engine configured given mount I).
Defined.

(** X7.  A tool invocation touches nothing but the processed facts, which it
    can only enlarge; and when it throws, it has changed nothing and called
    nothing. *)
Theorem onClientTool_frame (E : Engine) (config : Config)
    (invocation : Invocation) (p : Panel) :
  let r := onClientTool E config invocation p in
  errors (state_of r) = errors p
  /\ isInitializingSession (state_of r) = isInitializingSession p
  /\ widgetInstanceKey (state_of r) = widgetInstanceKey p
  /\ isMountedRef (state_of r) = isMountedRef p
  /\ hasAutoStartedRef (state_of r) = hasAutoStartedRef p
  /\ processedFacts p ⊆ processedFacts (state_of r)
  /\ match result_of r with
     | Throw _ => state_of r = p /\ calls_of r = []
     | Normal _ => True
     end.
Proof.
  intros r. subst r. unfold onClientTool.
  destruct (bool_decide (name invocation = js "switch_theme")).
  { destruct (_ || _); exec; [destruct (isDev config)|]; repeat split; done. }
  destruct (bool_decide (name invocation = js "record_fact"));
    [|repeat split; done].
  destruct (ToString E _) as [id|e]; [|repeat split; done].
  destruct (ToString E _) as [text|e]; [|repeat split; done].
  exec. destruct (bool_decide (id = [])); simpl; [repeat split; done|].
  destruct (bool_decide (id ∈ processedFacts p)); simpl;
    [repeat split; done|].
  repeat split. unfold state_of. cbn. apply union_subseteq_r.
Qed.

(** ** A negotiation from end to end *)

Section Outcome.

Context (E : Engine) (config : Config).

(** Result and final state of the second half of [getClientSecret]. *)
Lemma getClientSecret_after_fetch_outcome currentSecret reply p :
  let r := getClientSecret_after_fetch E config currentSecret reply p in
  result_of r = match tried E reply with
                | Normal clientSecret => Normal clientSecret
                | Throw error => Throw (rethrown error)
                end
  /\ state_of r
     = if isMountedRef p
       then with_surface p
              match tried E reply with
              | Normal _ => None
              | Throw error => Some (detail_of error)
              end
              (if truthy_text currentSecret then isInitializingSession p else false)
       else p.
Proof.
  unfold getClientSecret_after_fetch, getClientSecret_try, getClientSecret_catch,
    getClientSecret_finally, tried, data_of, rethrown, with_surface,
    result_of, state_of.
  destruct reply as [e|response e|response raw parsed].
  1,2: exec; destruct e; simpl; destruct (isMountedRef p) eqn:Hmounted; simpl;
    rewrite ?Hmounted; simpl; destruct (truthy_text currentSecret); simpl;
    destruct p; split; reflexivity.
  exec.
  destruct (isDev config), (negb (bool_decide (raw = []))), parsed as [v|e'];
    simpl; destruct (negb (ok response)); simpl;
    try destruct (Get E _ _) as [clientSecret|e'']; simpl;
    try destruct (negb (truthy clientSecret)); simpl;
    try destruct e''; simpl;
    destruct (isMountedRef p) eqn:Hmounted; simpl; rewrite ?Hmounted; simpl;
    destruct (truthy_text currentSecret); simpl;
    destruct p; split; reflexivity.
Qed.

(** Result and state of the first half, the workflow being configured. *)
Lemma getClientSecret_until_fetch_outcome currentSecret p :
  isWorkflowConfigured config = true ->
  let r := getClientSecret_until_fetch config currentSecret p in
  result_of r = Normal tt
  /\ state_of r
     = if isMountedRef p
       then with_surface p None
              (if truthy_text currentSecret then isInitializingSession p else true)
       else p.
Proof.
  intros Hconfigured.
  unfold getClientSecret_until_fetch, with_surface, result_of, state_of.
  rewrite Hconfigured. destruct p as [facts shown initializing key mounted guard].
  exec.
  destruct (isDev config), mounted, (truthy_text currentSecret);
    split; reflexivity.
Qed.

(** Result and state of a whole negotiation, the workflow being configured. *)
Lemma getClientSecret_outcome currentSecret reply p :
  isWorkflowConfigured config = true ->
  let r := getClientSecret E config currentSecret reply p in
  result_of r = match tried E reply with
                | Normal clientSecret => Normal clientSecret
                | Throw error => Throw (rethrown error)
                end
  /\ state_of r
     = if isMountedRef p
       then with_surface p
              match tried E reply with
              | Normal _ => None
              | Throw error => Some (detail_of error)
              end
              (if truthy_text currentSecret then isInitializingSession p else false)
       else p.
Proof.
  intros Hconfigured r. subst r. unfold getClientSecret.
  destruct (getClientSecret_until_fetch_outcome currentSecret p Hconfigured)
    as [Hresult Hstate].
  rewrite bind_result, bind_state, Hresult.
  destruct (getClientSecret_after_fetch_outcome currentSecret reply
              (state_of (getClientSecret_until_fetch config currentSecret p)))
    as [-> ->].
  split; [reflexivity|]. rewrite Hstate.
  destruct (isMountedRef p) eqn:Hmounted; [|rewrite Hmounted; reflexivity].
  unfold with_surface. cbn. rewrite Hmounted.
  destruct (truthy_text currentSecret); reflexivity.
Qed.

Lemma rethrown_is_Error (error : Thrown) : instanceof_Error (rethrown error) = true.
Proof. destruct error; reflexivity. Qed.

End Outcome.

Lemma getClientSecret_unconfigured_run E config currentSecret reply p :
  isWorkflowConfigured config = false ->
  result_of (getClientSecret E config currentSecret reply p)
  = Throw (new_Error configuration_detail)
  /\ state_of (getClientSecret E config currentSecret reply p)
     = if isMountedRef p then with_surface p (Some configuration_detail) false else p.
Proof.
  intros Hmissing. unfold getClientSecret.
  rewrite (bind_run _ _ _ _ _ _
             (getClientSecret_until_fetch_unconfigured config currentSecret p
                Hmissing)).
  split; reflexivity.
Qed.

(** X8.  Whatever goes wrong, [getClientSecret] rejects with an [Error]
    object: a thrown value that is none is wrapped in one. *)
Theorem getClientSecret_rejects_with_Error (E : Engine) (config : Config)
    (currentSecret : option jsstring) (reply : NetworkReply) (p : Panel) :
  match result_of (getClientSecret E config currentSecret reply p) with
  | Throw e => instanceof_Error e = true
  | Normal _ => True
  end.
Proof.
  destruct (isWorkflowConfigured config) eqn:Hconfigured.
  - rewrite (proj1 (getClientSecret_outcome E config currentSecret reply p
                      Hconfigured)).
    destruct (tried E reply) as [clientSecret|error]; [exact I|].
    apply rethrown_is_Error.
  - rewrite (proj1 (getClientSecret_unconfigured_run E config currentSecret reply p
                      Hconfigured)).
    reflexivity.
Qed.

(** X9.  On a panel whose [isMountedRef] is up, the error message after a
    negotiation tells its outcome: none when a secret was returned, the
    message of the thrown error otherwise. *)
Theorem error_message_tells_outcome (E : Engine) (config : Config)
    (currentSecret : option jsstring) (reply : NetworkReply) (p : Panel) :
  isMountedRef p = true ->
  let r := getClientSecret E config currentSecret reply p in
  match result_of r with
  | Normal _ => message (errors (state_of r)) = None
  | Throw (ErrorObject _ text) => message (errors (state_of r)) = Some text
  | Throw (NonError _) => False
  end.
Proof.
  intros Hmounted r. subst r.
  destruct (isWorkflowConfigured config) eqn:Hconfigured.
  - destruct (getClientSecret_outcome E config currentSecret reply p Hconfigured)
      as [-> ->].
    rewrite Hmounted.
    destruct (tried E reply) as [clientSecret|[kind text|v]]; reflexivity.
  - destruct (getClientSecret_unconfigured_run E config currentSecret reply p
                Hconfigured) as [-> ->].
    rewrite Hmounted. reflexivity.
Qed.

Lemma error_message_tells_outcome_witness :
  isMountedRef mount = true
  /\ message (errors (state_of (getClientSecret some_engine configured None
                                  rate_limited mount)))
     = Some (js "rate_limited").
Proof.
  split; [reflexivity|].
  exact (error_message_tells_outcome some_engine configured None rate_limited mount
           eq_refl).
Defined.

(** X10.  With the workflow configured, a first call (no current secret) on
    a mounted panel raises the initializing flag while the request is under
    way and lowers it at the end, whatever the reply; a refresh call, and any
    call on a panel whose [isMountedRef] is down, leaves the flag alone. *)
Theorem initializing_flag_through_negotiation (E : Engine) (config : Config)
    (currentSecret : option jsstring) (reply : NetworkReply) (p : Panel) :
  isWorkflowConfigured config = true ->
  isInitializingSession
    (state_of (getClientSecret_until_fetch config currentSecret p))
  = (if isMountedRef p && negb (truthy_text currentSecret)
     then true else isInitializingSession p)
  /\ isInitializingSession
       (state_of (getClientSecret E config currentSecret reply p))
     = (if isMountedRef p && negb (truthy_text currentSecret)
        then false else isInitializingSession p).
Proof.
  intros Hconfigured.
  rewrite (proj2 (getClientSecret_until_fetch_outcome config currentSecret p
                    Hconfigured)).
  rewrite (proj2 (getClientSecret_outcome E config currentSecret reply p
                    Hconfigured)).
  destruct (isMountedRef p), (truthy_text currentSecret); split; reflexivity.
Qed.

Lemma initializing_flag_through_negotiation_witness :
  isWorkflowConfigured configured = true
  /\ isInitializingSession
       (state_of (getClientSecret some_engine configured None rate_limited mount))
     = false.
Proof.
  split; [reflexivity|].
  exact (proj2 (initializing_flag_through_negotiation some_engine configured None
                  rate_limited mount eq_refl)).
Defined.

(** X11.  With the workflow configured, a successful response whose payload
    has a truthy [client_secret] makes [getClientSecret] return that value as
    it is, and clears the error message of a mounted panel. *)
Theorem getClientSecret_returns_secret (E : Engine) (config : Config)
    (currentSecret : option jsstring) (code : N) (reason raw : jsstring)
    (parsed : Completion value) (p : Panel) :
  isWorkflowConfigured config = true ->
  is_nullish (data_of raw parsed) = false ->
  truthy (property (data_of raw parsed) (js "client_secret")) = true ->
  let r := getClientSecret E config currentSecret
             (body_read {| ok := true; status := code; statusText := reason |}
                raw parsed) p in
  result_of r = Normal (property (data_of raw parsed) (js "client_secret"))
  /\ (if isMountedRef p then message (errors (state_of r)) = None
      else state_of r = p).
Proof.
  intros Hconfigured Hdata Hsecret r. subst r.
  destruct (getClientSecret_outcome E config currentSecret
              (body_read {| ok := true; status := code; statusText := reason |}
                 raw parsed) p Hconfigured) as [-> ->].
  unfold tried, Get. cbn [ok negb]. rewrite Hdata, Hsecret. cbn [negb].
  destruct (isMountedRef p); split; reflexivity.
Qed.

Lemma getClientSecret_returns_secret_witness :
  let raw := js "{" ++ quoted (js "client_secret") ++ js ":"
             ++ quoted (js "ek_123") ++ js "}" in
  let parsed := Normal (VObj [(js "client_secret", VStr (js "ek_123"))]) in
  isWorkflowConfigured configured = true
  /\ result_of (getClientSecret some_engine configured None
                  (body_read {| ok := true; status := 200; statusText := js "OK" |}
                     raw parsed) mount)
     = Normal (VStr (js "ek_123")).
Proof.
  intros raw parsed. split; [reflexivity|].
  exact (proj1 (getClientSecret_returns_secret some_engine configured None 200
                  (js "OK") raw parsed mount eq_refl eq_refl eq_refl)).
Defined.

(** X12.  With the workflow configured, a body that is empty or does not
    parse is treated as [{}]: the negotiation fails with the status text when
    the status is not a success and with "Missing client secret in response"
    when it is; the parse error itself is never thrown on. *)
Theorem unreadable_body_is_empty_payload (E : Engine) (config : Config)
    (currentSecret : option jsstring) (response : Response) (raw : jsstring)
    (parsed : Completion value) (p : Panel) :
  isWorkflowConfigured config = true ->
  raw = [] \/ (exists parseError, parsed = Throw parseError) ->
  result_of (getClientSecret E config currentSecret
               (body_read response raw parsed) p)
  = Throw (new_Error (if ok response
                      then js "Missing client secret in response"
                      else statusText response)).
Proof.
  intros Hconfigured Hbody.
  rewrite (proj1 (getClientSecret_outcome E config currentSecret
                    (body_read response raw parsed) p Hconfigured)).
  assert (Hdata : data_of raw parsed = VObj []).
  { unfold data_of. destruct Hbody as [-> | [parseError ->]]; [reflexivity|].
    destruct (negb _); reflexivity. }
  unfold tried. rewrite Hdata. destruct (ok response); reflexivity.
Qed.

Lemma unreadable_body_is_empty_payload_witness :
  let response := {| ok := false; status := 502; statusText := js "Bad Gateway" |} in
  let parsed := Throw (ErrorObject (js "SyntaxError") (js "Unexpected token <")) in
  isWorkflowConfigured configured = true
  /\ result_of (getClientSecret some_engine configured None
                  (body_read response (js "<html>") parsed) mount)
     = Throw (new_Error (js "Bad Gateway")).
Proof.
  intros response parsed. split; [reflexivity|].
  exact (unreadable_body_is_empty_payload some_engine configured None response
           (js "<html>") parsed mount eq_refl
           (or_intror (ex_intro _ _ eq_refl))).
Defined.

(** X13.  After a refused negotiation on a mounted panel, the error overlay
    has an error, and offers the retry, exactly when the extracted detail is
    not the empty string: an empty detail (a payload with [error: ""], or no
    usable field and an empty status text) fails without showing anything. *)
Theorem refused_negotiation_shows_nonempty_detail (E : Engine) (config : Config)
    (currentSecret : option jsstring) (code : N) (reason raw : jsstring)
    (parsed : Completion value) (p : Panel) :
  isWorkflowConfigured config = true ->
  isMountedRef p = true ->
  let r := getClientSecret E config currentSecret
             (body_read {| ok := false; status := code; statusText := reason |}
                raw parsed) p in
  let detail := extractErrorDetail (data_of raw parsed) reason in
  hasError (state_of r) = negb (bool_decide (detail = []))
  /\ match onRetry (state_of r) with
     | Some _ => detail <> []
     | None => detail = []
     end.
Proof.
  intros Hconfigured Hmounted r detail. subst r.
  rewrite (proj2 (getClientSecret_outcome E config currentSecret
                    (body_read {| ok := false; status := code;
                                  statusText := reason |} raw parsed)
                    p Hconfigured)).
  rewrite Hmounted. unfold onRetry, hasError, tried, with_surface.
  cbn [ok statusText negb errors message detail_of new_Error truthy_text].
  fold detail. split; [reflexivity|].
  destruct (bool_decide (detail = [])) eqn:Hempty; cbn [negb].
  - exact (bool_decide_eq_true_1 _ Hempty).
  - exact (bool_decide_eq_false_1 _ Hempty).
Qed.

Lemma refused_negotiation_shows_nonempty_detail_witness :
  let parsed := Normal (VObj [(js "error", VStr [])]) in
  let raw := js "{" ++ quoted (js "error") ++ js ":" ++ quoted [] ++ js "}" in
  isWorkflowConfigured configured = true
  /\ isMountedRef mount = true
  /\ hasError (state_of (getClientSecret some_engine configured None
                           (body_read {| ok := false; status := 500;
                                         statusText := js "Internal Server Error" |}
                              raw parsed) mount))
     = false.
Proof.
  intros parsed raw. split; [reflexivity|]. split; [reflexivity|].
  exact (proj1 (refused_negotiation_shows_nonempty_detail some_engine configured
                  None 500 (js "Internal Server Error") raw parsed mount
                  eq_refl eq_refl)).
Defined.

(** ** The two revisions of the negotiation *)

(** A reply on which [data.client_secret] is not read from [null]: the status
    is not a success, or the payload is not [null]. *)
Lemma getClientSecret_try_agree E config reply p :
  match reply with
  | body_read response raw parsed =>
      ok response = false \/ is_nullish (data_of raw parsed) = false
  | _ => True
  end ->
  Earlier.getClientSecret_try config reply p = getClientSecret_try E config reply p.
Proof.
  destruct reply as [e|response e|response raw parsed]; [reflexivity..|].
  unfold data_of, Earlier.getClientSecret_try, getClientSecret_try, Get, Get_optional.
  intros Hagree. exec.
  destruct (isDev config), (negb (bool_decide (raw = []))), parsed as [v|e];
    simpl in *; rewrite ?earlier_extractErrorDetail;
    destruct (ok response); simpl;
    try reflexivity;
    destruct Hagree as [Hok|Hdata]; try discriminate; rewrite ?Hdata; reflexivity.
Qed.

(** X14.  The two revisions of [getClientSecret] do the same (same result,
    same state, same calls) on every reply but one kind: a success status
    with a [null] payload, where only the current revision reads
    [client_secret] from [null]. *)
Theorem revisions_agree_unless_null_payload (E : Engine) (config : Config)
    (currentSecret : option jsstring) (reply : NetworkReply) (p : Panel) :
  match reply with
  | body_read response raw parsed =>
      ok response = false \/ is_nullish (data_of raw parsed) = false
  | _ => True
  end ->
  Earlier.getClientSecret config currentSecret reply p
  = getClientSecret E config currentSecret reply p.
Proof.
  intros Hagree.
  assert (Hafter : forall q,
             Earlier.getClientSecret_after_fetch config currentSecret reply q
             = getClientSecret_after_fetch E config currentSecret reply q).
  { intros q.
    unfold Earlier.getClientSecret_after_fetch, getClientSecret_after_fetch.
    unfold mbind, M_bind.
    rewrite (getClientSecret_try_agree E config reply q Hagree). reflexivity. }
  unfold Earlier.getClientSecret, getClientSecret. unfold mbind, M_bind.
  destruct (getClientSecret_until_fetch config currentSecret p)
    as [[[[]|e] q] calls]; [|reflexivity].
  rewrite Hafter. reflexivity.
Qed.

Lemma revisions_agree_unless_null_payload_witness :
  (ok {| ok := false; status := 500; statusText := js "Internal Server Error" |}
   = false
   \/ is_nullish (data_of (js "null") (Normal VNull)) = false)
  /\ Earlier.getClientSecret configured None
       (body_read {| ok := false; status := 500;
                     statusText := js "Internal Server Error" |}
          (js "null") (Normal VNull)) mount
     = getClientSecret some_engine configured None
         (body_read {| ok := false; status := 500;
                       statusText := js "Internal Server Error" |}
            (js "null") (Normal VNull)) mount.
Proof.
  split; [left; reflexivity|].
  exact (revisions_agree_unless_null_payload some_engine configured None
           (body_read {| ok := false; status := 500;
                         statusText := js "Internal Server Error" |}
              (js "null") (Normal VNull)) mount (or_introl eq_refl)).
Defined.

(** ** Over any run of events *)

Section Runs.

Context (E : Engine) (config : Config).

Lemma run_cons_state (ev : Event) (evs : list Event) (p : Panel) :
  state_of (run E config (ev :: evs) p)
  = state_of (run E config evs (state_of (handle E config ev p))).
Proof. rewrite run_cons. reflexivity. Qed.

Lemma handle_keeps_mounted (ev : Event) :
  is_cleanup ev = false -> preserves isMountedRef (handle E config ev).
Proof.
  intros Hnot_cleanup.
  destruct ev; try discriminate;
    try (intros p; rewrite handle_retry_cases; destruct (hasError p); reflexivity);
    unfold_handlers; walk.
Qed.

Lemma handle_no_fetch (ev : Event) (p : Panel) :
  is_getClientSecret ev = false ->
  forallb no_fetch (calls_of (handle E config ev p)) = true.
Proof.
  intros Hnot_asked. revert p.
  destruct ev; try discriminate;
    try (intros p; rewrite handle_retry_cases; destruct (hasError p); reflexivity);
    match goal with
    | |- forall p, forallb no_fetch (calls_of (handle E config ?ev p)) = true =>
        change (emits no_fetch (handle E config ev))
    end;
    unfold_handlers; walk.
Qed.

Lemma no_fetch_filter (calls : list Call) :
  forallb no_fetch calls = true -> List.filter is_fetch calls = [].
Proof.
  induction calls as [|c calls IH]; [reflexivity|].
  simpl. intros [Hc Hcalls]%andb_prop. unfold no_fetch in Hc.
  destruct (is_fetch c); [discriminate | auto].
Qed.

Lemma handle_generation (ev : Event) (p : Panel) :
  widgetInstanceKey (state_of (handle E config ev p))
  = (widgetInstanceKey p
     + (if is_retry ev && hasError p then 1 else 0))%N.
Proof.
  destruct ev;
    try (cbn [is_retry andb]; rewrite N.add_0_r;
         match goal with
         | |- context [handle E config ?ev p] =>
             exact (handle_keeps_generation E config ev I p)
         end).
  rewrite handle_retry_cases. cbn [is_retry andb].
  destruct (hasError p); [reflexivity | symmetry; apply N.add_0_r].
Qed.

End Runs.

(** X15.  [isMountedRef] never comes back up: after any run of events it is
    up exactly if it was up at the start and the cleanup of the mount effect
    was not among the events. *)
Theorem isMountedRef_never_rises (E : Engine) (config : Config)
    (evs : list Event) (p : Panel) :
  isMountedRef (state_of (run E config evs p))
  = isMountedRef p && forallb (fun ev => negb (is_cleanup ev)) evs.
Proof.
  revert p. induction evs as [|ev evs IH]; intros p.
  { rewrite andb_true_r. reflexivity. }
  rewrite run_cons_state, IH. cbn [forallb].
  destruct (is_cleanup ev) eqn:Hcleanup.
  - destruct ev; try discriminate. cbn. rewrite andb_false_r. reflexivity.
  - rewrite (handle_keeps_mounted E config ev Hcleanup p). reflexivity.
Qed.

(** X16.  Pressing the retry a second time, nothing having happened in
    between, does nothing more: the first press either was not offered or
    cleared the error that offers it. *)
Theorem retry_twice_is_retry_once (E : Engine) (config : Config) (p : Panel) :
  run E config [overlay_onRetry; overlay_onRetry] p
  = run E config [overlay_onRetry] p.
Proof.
  rewrite !run_cons, !handle_retry_cases.
  destruct (hasError p) eqn:Herror.
  - reflexivity.
  - unfold state_of. cbn [fst snd]. rewrite Herror. reflexivity.
Qed.

(** X17.  The generation never goes down, and goes up by one exactly at each
    retry pressed while an error is shown: after any run of events it is at
    least what it was and at most that plus the number of retries. *)
Theorem generation_counts_retries (E : Engine) (config : Config)
    (evs : list Event) (p : Panel) :
  (widgetInstanceKey p <= widgetInstanceKey (state_of (run E config evs p)))%N
  /\ (widgetInstanceKey (state_of (run E config evs p))
      <= widgetInstanceKey p + N.of_nat (length (List.filter is_retry evs)))%N.
Proof.
  revert p. induction evs as [|ev evs IH]; intros p.
  { change (state_of (run E config [] p)) with p. cbn. lia. }
  rewrite run_cons_state.
  specialize (IH (state_of (handle E config ev p))).
  rewrite handle_generation in IH. cbn [List.filter].
  destruct (is_retry ev); cbn [andb length] in *.
  - destruct (hasError p); lia.
  - lia.
Qed.

(** X18.  Each call of [getClientSecret] makes one request when the workflow
    is configured and none when it is not, and nothing else makes any: over
    any run of events there are as many requests as calls, with no retry of
    a failed one. *)
Theorem one_request_per_negotiation (E : Engine) (config : Config)
    (evs : list Event) (p : Panel) :
  length (List.filter is_fetch (calls_of (run E config evs p)))
  = if isWorkflowConfigured config
    then length (List.filter is_getClientSecret evs)
    else 0.
Proof.
  revert p. induction evs as [|ev evs IH]; intros p.
  { destruct (isWorkflowConfigured config); reflexivity. }
  rewrite run_cons_calls, List.filter_app, length_app, IH. cbn [List.filter].
  destruct (is_getClientSecret ev) eqn:Hasked.
  - destruct ev; try discriminate. cbn [handle].
    rewrite ignore_result_calls, getClientSecret_until_fetch_calls.
    destruct (isDev config), (isWorkflowConfigured config); reflexivity.
  - rewrite (no_fetch_filter _ (handle_no_fetch E config ev p Hasked)).
    reflexivity.
Qed.

Lemma onClientTool_themeRequests (E : Engine) (config : Config)
    (invocation : Invocation) (p : Panel) :
  List.filter is_themeRequest (calls_of (onClientTool E config invocation p))
  = match theme_requested (widget_onClientTool invocation) with
    | Some c => [c]
    | None => []
    end.
Proof.
  unfold onClientTool, theme_requested.
  destruct (bool_decide (name invocation = js "switch_theme")).
  { generalize (property (VObj (params invocation)) (js "theme")). intros theme.
    unfold strict_equals_string, named_scheme.
    destruct theme as [| |b|n|s|items|fields]; try reflexivity.
    destruct (decide (s = js "light")) as [->|Hlight].
    { rewrite bool_decide_eq_true_2 by reflexivity. exec.
      destruct (isDev config); reflexivity. }
    rewrite (bool_decide_eq_false_2 _ Hlight).
    destruct (decide (s = js "dark")) as [->|Hdark].
    { rewrite bool_decide_eq_true_2 by reflexivity. exec.
      destruct (isDev config); reflexivity. }
    rewrite (bool_decide_eq_false_2 _ Hdark). reflexivity. }
  destruct (bool_decide (name invocation = js "record_fact")); [|reflexivity].
  destruct (ToString E _) as [id|e]; [|reflexivity].
  destruct (ToString E _) as [text|e]; [|reflexivity].
  exec. destruct (bool_decide (id = [])); simpl; [reflexivity|].
  destruct (bool_decide (id ∈ processedFacts p)); reflexivity.
Qed.

Lemma handle_no_themeRequest (E : Engine) (config : Config) (ev : Event)
    (p : Panel) :
  match ev with widget_onClientTool _ => False | _ => True end ->
  List.filter is_themeRequest (calls_of (handle E config ev p)) = [].
Proof.
  intros Hnot_tool.
  assert (Hnone : forall calls,
             forallb (fun c => negb (is_themeRequest c)) calls = true ->
             List.filter is_themeRequest calls = []).
  { induction calls as [|c calls IH]; [reflexivity|].
    simpl. intros [Hc Hcalls]%andb_prop.
    destruct (is_themeRequest c); [discriminate | auto]. }
  apply Hnone. revert p.
  destruct ev; try destruct Hnot_tool;
    try (intros p; rewrite handle_retry_cases; destruct (hasError p); reflexivity);
    match goal with
    | |- forall p, forallb ?allowed (calls_of (handle E config ?ev p)) = true =>
        change (emits allowed (handle E config ev))
    end;
    unfold_handlers; walk.
Qed.

(** X19.  Over any run of events, [onThemeRequest] is called once for each
    [switch_theme] invocation whose [theme] is ["light"] or ["dark"], with
    that scheme and in the order of the invocations, and for nothing else. *)
Theorem theme_requests_follow_invocations (E : Engine) (config : Config)
    (evs : list Event) (p : Panel) :
  List.filter is_themeRequest (calls_of (run E config evs p))
  = omap theme_requested evs.
Proof.
  revert p. induction evs as [|ev evs IH]; intros p; [reflexivity|].
  rewrite run_cons_calls, List.filter_app, IH.
  destruct ev as [| |invocation| | | | | | | |];
    try (rewrite handle_no_themeRequest by exact I; reflexivity).
  cbn [handle]. rewrite ignore_result_calls, onClientTool_themeRequests.
  change (omap theme_requested (widget_onClientTool invocation :: evs))
    with (match theme_requested (widget_onClientTool invocation) with
          | Some c => c :: omap theme_requested evs
          | None => omap theme_requested evs
          end).
  destruct (theme_requested (widget_onClientTool invocation)); reflexivity.
Qed.

(** ** The configuration check *)

Lemma startsWith_prefix (s prefix : jsstring) :
  startsWith s prefix = true <-> exists rest, s = prefix ++ rest.
Proof.
  revert s. induction prefix as [|c prefix IH]; intros s.
  - destruct s; (split; [intros _; eexists; reflexivity | reflexivity]).
  - destruct s as [|d s]; cbn [startsWith].
    + split; [discriminate | intros [rest Hrest]; discriminate].
    + rewrite andb_true_iff, N.eqb_eq, IH. split.
      * intros [-> [rest ->]]. exists rest. reflexivity.
      * intros [rest Hrest]. injection Hrest as -> ->. split; eauto.
Qed.

(** X20.  The workflow counts as configured exactly when [WORKFLOW_ID] is a
    non-empty string that does not begin with ["wf_replace"]; any id with
    that prefix is turned down, whatever follows it. *)
Theorem isWorkflowConfigured_iff (config : Config) :
  isWorkflowConfigured config = true
  <-> exists id, WORKFLOW_ID config = Some id
                 /\ id <> []
                 /\ ~ (exists rest, id = js "wf_replace" ++ rest).
Proof.
  unfold isWorkflowConfigured. destruct (WORKFLOW_ID config) as [id|].
  - rewrite andb_true_iff, !negb_true_iff, bool_decide_eq_false.
    rewrite <- not_true_iff_false, startsWith_prefix. split.
    + intros [Hid Hprefix]. exists id. auto.
    + intros (id' & [= <-] & Hid & Hprefix). auto.
  - split; [discriminate | intros (id & Hid & _); discriminate].
Qed.
